(** * The KPI-performance skill adapter

    A shallow embedding of [src/kpi_performance.py]: the skill handler
    [kpi_performance] and its helper [render_layout].

    The adapter is glue code around three collaborators it does not own: the
    analysis engine ([ar_analytics]), the LLM client ([ArUtils]) and the
    layout engine ([wire_layout]), plus the template renderer ([jinja2]) and
    the JSON decoder of the standard library.  Their calls are the nodes of a
    finite interaction tree ([prog]); a [handler] stands for the outside world
    and answers every call with a value or with an exception.  Running a
    program against a handler yields its [outcome] and the [trace] of the
    calls it made, so that what the adapter hands to a collaborator can be
    observed as well as what it returns. *)

From Stdlib Require Import ZArith String Ascii List Lia.
From stdpp Require Import base option list strings pretty gmap.

Set Warnings "-register-all".
#[local] Open Scope string_scope.
#[local] Open Scope list_scope.

(** ** Python values *)

(** The values that cross the adapter's boundary: table cells, JSON
    documents, entries of variable mappings.  Numbers are integers. *)
Inductive pyval : Type :=
| PNone
| PBool (b : bool)
| PInt (z : Z)
| PStr (s : string)
| PList (l : list pyval)
| PDict (d : list (string * pyval)).

(** Truth value of an object, as tested by [if x], [x or y] and
    [a if x else b]. *)
Definition truthy (v : pyval) : bool :=
  match v with
  | PNone => false
  | PBool b => b
  | PInt z => negb (z =? 0)%Z
  | PStr s => negb (String.eqb s "")
  | PList l => negb (Nat.eqb (length l) 0)
  | PDict d => negb (Nat.eqb (length d) 0)
  end.

(** [type(v).__name__] *)
Definition type_name (v : pyval) : string :=
  match v with
  | PNone => "NoneType"
  | PBool _ => "bool"
  | PInt _ => "int"
  | PStr _ => "str"
  | PList _ => "list"
  | PDict _ => "dict"
  end.

(** An attribute or variable that holds a [str] or [None]. *)
Definition of_optional_str (o : option string) : pyval :=
  match o with
  | Some s => PStr s
  | None => PNone
  end.

Definition truthy_str (o : option string) : bool := truthy (of_optional_str o).

(** *** [str.strip()]

    A [str] is the [string] of its code points; the model covers code points
    below 256.  In that range [str.strip()] removes the characters for which
    [str.isspace] holds: 9 to 13, 28 to 32, 133 and 160. *)
Definition isspace (c : ascii) : bool :=
  let n := nat_of_ascii c in
  (((9 <=? n) && (n <=? 13)) || ((28 <=? n) && (n <=? 32))
   || (n =? 133) || (n =? 160))%nat.

Fixpoint lstrip (s : string) : string :=
  match s with
  | EmptyString => EmptyString
  | String c s' => if isspace c then lstrip s' else s
  end.

Fixpoint rstrip (s : string) : string :=
  match s with
  | EmptyString => EmptyString
  | String c s' =>
      match rstrip s' with
      | EmptyString => if isspace c then EmptyString else String c EmptyString
      | r => String c r
      end
  end.

Definition strip (s : string) : string := rstrip (lstrip s).

(** *** Dictionaries that are iterated

    A [dict] whose iteration order is observed is a list of items in
    insertion order.  [d[k] = v] replaces the value of an existing key in
    place and appends a new key at the end. *)
Fixpoint dict_set {V : Type} (k : string) (v : V) (d : list (string * V))
  : list (string * V) :=
  match d with
  | [] => [(k, v)]
  | (k', v') :: d' =>
      if decide (k' = k) then (k', v) :: d' else (k', v') :: dict_set k v d'
  end.

(** ** Exceptions and results *)

Inductive exn : Type :=
| Exception (type : string) (message : string).

Definition TypeError := Exception "TypeError".
Definition IndexError := Exception "IndexError".
Definition KeyError := Exception "KeyError".
Definition AttributeError := Exception "AttributeError".

Inductive result (A : Type) : Type :=
| Ok (a : A)
| Err (e : exn).
Arguments Ok {A} a.
Arguments Err {A} e.

(** ** Tables *)

(** A [pandas.DataFrame]: column labels and rows of cells. *)
Record DataFrame : Type := mkDataFrame {
  df_columns : list string;
  df_rows : list (list pyval)
}.

(** One row as a record: the [dict] built from the column labels and the
    row's cells, a repeated label keeping its last cell. *)
Definition row_record (columns : list string) (row : list pyval) : pyval :=
  PDict (fold_left (fun d kv => dict_set kv.1 kv.2 d) (combine columns row) []).

(** [df.to_dict(orient='records')] *)
Definition to_dict_records (df : DataFrame) : list pyval :=
  map (row_record (df_columns df)) (df_rows df).

(** ** Objects of the host framework and of the analysis engine *)

(** [parameters.arguments]: the parameter bundle of the [@skill]
    declaration. *)
Record SkillArguments : Type := mkSkillArguments {
  metrics : list string;
  metric_groups : list string;
  breakouts : list string;
  periods : list string;
  growth_type : string;
  growth_trend : option string;
  other_filters : list pyval;
  max_prompt : string;
  insight_prompt : string;
  table_viz_layout : pyval;
  limit_n : Z
}.


Record SkillInput : Type := mkSkillInput { arguments : SkillArguments }.

(** [env]: the namespace that receives the arguments; the engine's setup adds
    [kpi_parameters] to it. *)
Record Env : Type := mkEnv {
  env_arguments : SkillArguments;
  kpi_parameters : option (gmap string pyval)
}.

(** The namespace built from the attributes of [parameters.arguments]. *)
Definition SimpleNamespace (a : SkillArguments) : Env :=
  {| env_arguments := a; kpi_parameters := None |}.

(** The attributes of [env.kpi_performance] that the adapter reads. *)
Module KPIPerformance.
Record t : Type := mk {
  include_ranks : pyval;
  paramater_display_infomation : list (string * pyval);
  df_notes : DataFrame;
  warning_message : option string;
  title : option string;
  subtitle : option string;
  dimensions : list string
}.
End KPIPerformance.

Module SkillVisualization.
Record t : Type := mk { title : string; layout : pyval }.
End SkillVisualization.

Module ParameterDisplayDescription.
Record t : Type := mk { key : string; value : pyval }.
End ParameterDisplayDescription.

Module SuggestedQuestion.
Record t : Type := mk { label : pyval; question : pyval }.
End SuggestedQuestion.

Module ExportData.
Record t : Type := mk { name : string; data : DataFrame }.
End ExportData.

Module SkillOutput.
Record t : Type := mk {
  final_prompt : string;
  narrative : option string;
  visualizations : list SkillVisualization.t;
  parameter_display_descriptions : list ParameterDisplayDescription.t;
  followup_questions : list SuggestedQuestion.t;
  export_data : list ExportData.t
}.
End SkillOutput.

(** ** Calls to the collaborators *)

(** Every call the adapter makes outside itself.  A method of the engine
    receives the engine object and, since it may update it, hands it back
    with its value. *)
Inductive call : Type :=
| KPIPerformanceTemplateParameterSetup (env : Env)
| from_env (env : Env)
| run_from_env (kp : KPIPerformance.t)
| get_display_tables (kp : KPIPerformance.t) (drop_rank breakouts : pyval)
| limit_facts_to_top_n (kp : KPIPerformance.t) (df : DataFrame) (top_n : nat)
| get_suggestions (kp : KPIPerformance.t)
| Template_render (template : string) (facts : list (list pyval))
| ArUtils
| get_llm_response (prompt : string)
| get_table_layout_vars_kpi (table : DataFrame) (dim_col_label : string)
| json_decode (s : string)
| wire_layout (viz_layout : pyval) (vars : gmap string pyval).

Definition reply (c : call) : Type :=
  match c with
  | KPIPerformanceTemplateParameterSetup _ => Env
  | from_env _ => KPIPerformance.t
  | run_from_env _ => DataFrame * KPIPerformance.t
  | get_display_tables _ _ _ =>
      list (string * DataFrame) * gmap string string * KPIPerformance.t
  | limit_facts_to_top_n _ _ _ => DataFrame * option string * KPIPerformance.t
  | get_suggestions _ => list (gmap string pyval) * KPIPerformance.t
  | Template_render _ _ => string
  | ArUtils => unit
  | get_llm_response _ => option string
  | get_table_layout_vars_kpi _ _ => gmap string pyval
  | json_decode _ => pyval
  | wire_layout _ _ => pyval
  end.

(** ** Programs *)

(** The adapter's code: it returns, raises, or calls a collaborator and goes
    on with the reply.  There is no node that catches an exception, as the
    source has no [try]. *)
Inductive prog (A : Type) : Type :=
| Ret (a : A)
| Raise (e : exn)
| Call (c : call) (k : reply c -> prog A).
Arguments Ret {A} a.
Arguments Raise {A} e.
Arguments Call {A} c k.

Fixpoint bind {A B : Type} (p : prog A) (f : A -> prog B) : prog B :=
  match p with
  | Ret a => f a
  | Raise e => Raise e
  | Call c k => Call c (fun r => bind (k r) f)
  end.

Definition perform (c : call) : prog (reply c) := Call c Ret.

Declare Scope prog_scope.
Delimit Scope prog_scope with prog.
Notation "x <- p ;; q" := (bind p (fun x => q))
  (at level 100, p at next level, right associativity) : prog_scope.

(** The outside world: an answer, or an exception, for every call.  A
    collaborator answers a call by its arguments alone: what a method of the
    engine changes is in the engine object it hands back. *)
Definition handler : Type := forall c : call, result (reply c).

Fixpoint outcome {A : Type} (h : handler) (p : prog A) : result A :=
  match p with
  | Ret a => Ok a
  | Raise e => Err e
  | Call c k =>
      match h c with
      | Ok r => outcome h (k r)
      | Err e => Err e
      end
  end.

(** A call together with what the world answered. *)
Record event : Type := Event {
  ev_call : call;
  ev_result : result (reply ev_call)
}.

Fixpoint trace {A : Type} (h : handler) (p : prog A) : list event :=
  match p with
  | Ret _ | Raise _ => []
  | Call c k =>
      Event c (h c) ::
      match h c with
      | Ok r => trace h (k r)
      | Err _ => []
      end
  end.

(** An operation of the adapter itself that may raise. *)
Definition lift {A : Type} (r : result A) : prog A :=
  match r with
  | Ok a => Ret a
  | Err e => Raise e
  end.

(** ** The adapter *)

#[local] Open Scope prog_scope.

(** [l[0]] *)
Definition subscript0 {A : Type} (l : list A) : result A :=
  match l with
  | x :: _ => Ok x
  | [] => Err (IndexError "list index out of range")
  end.

(** [d.get(k)] *)
Definition dict_get (d : gmap string pyval) (k : string) : pyval :=
  default PNone (d !! k).

(** [env.kpi_parameters[k]] *)
Definition kpi_parameter (env : Env) (k : string) : result pyval :=
  match kpi_parameters env with
  | None =>
      Err (AttributeError
             "'types.SimpleNamespace' object has no attribute 'kpi_parameters'")
  | Some d =>
      match d !! k with
      | Some v => Ok v
      | None => Err (KeyError ("'" +:+ k +:+ "'"))
      end
  end.

(** [json.loads(s)]: the argument must be a [str] (the model has no [bytes]);
    decoding it is the decoder's work. *)
Definition json_loads (s : pyval) : prog pyval :=
  match s with
  | PStr s => perform (json_decode s)
  | _ =>
      Raise (TypeError ("the JSON object must be str, bytes or bytearray, not "
                        +:+ type_name s))
  end.

(** *** [render_layout] *)

(** Lines 170-176: the variables shared by all visualizations. *)
Definition general_vars (title subtitle warnings insights : option string)
  : gmap string pyval :=
  list_to_map [
    ("headline",
      if truthy_str title then of_optional_str title else PStr "Total");
    ("sub_headline",
      if truthy_str subtitle then of_optional_str subtitle
      else PStr "Trend Analysis");
    ("hide_growth_warning", PBool (if truthy_str warnings then false else true));
    ("exec_summary",
      if truthy_str insights then of_optional_str insights
      else PStr "No Insight.");
    ("warning", of_optional_str warnings)
  ].

(** Lines 186-188: the footnote of the table called [name], if any. *)
Definition dim_note (footnotes : gmap string string) (name : string)
  : option string :=
  if decide (is_Some (footnotes !! name)) then footnotes !! name else None.

(** Lines 190-191: the two footer entries written into [table_vars]. *)
Definition set_footer (dim_note : option string) (table_vars : gmap string pyval)
  : gmap string pyval :=
  <["footer" :=
      PStr (if truthy_str dim_note then strip (default "" dim_note)
            else "No additional info.")]>
    (<["hide_footer" := PBool (if truthy_str dim_note then false else true)]>
       table_vars).

(** Lines 181-195: the loop over [tables.items()], with the three variables it
    updates: [viz_layout], [viz_list] and [export_data]. *)
Fixpoint render_tables (items : list (string * DataFrame))
    (general_vars : gmap string pyval) (dim_col_label : string)
    (footnotes : gmap string string) (viz_layout : pyval)
    (viz_list : list SkillVisualization.t)
    (export_data : list (string * DataFrame))
  : prog (list SkillVisualization.t * list (string * DataFrame)) :=
  match items with
  | [] => Ret (viz_list, export_data)
  | (name, table) :: items =>
      let export_data := dict_set name table export_data in
      table_vars <-
        (perform (get_table_layout_vars_kpi table dim_col_label)
         : prog (gmap string pyval)) ;;
      let table_vars := set_footer (dim_note footnotes name) table_vars in
      viz_layout <- json_loads viz_layout ;;
      rendered_layout <-
        (perform (wire_layout viz_layout (table_vars ∪ general_vars))
         : prog pyval) ;;
      render_tables items general_vars dim_col_label footnotes viz_layout
        (viz_list ++ [SkillVisualization.mk name rendered_layout]) export_data
  end.

(** Lines 156-197. *)
Definition render_layout (tables : list (string * DataFrame))
    (title subtitle : option string) (dim_col_label : string)
    (insights_dfs : list DataFrame) (warnings : option string)
    (footnotes : gmap string string) (max_prompt insight_prompt : string)
    (viz_layout : pyval)
  : prog (list SkillVisualization.t * option string * string
          * list (string * DataFrame)) :=
  let facts := map to_dict_records insights_dfs in
  insight_template <-
    (perform (Template_render insight_prompt facts) : prog string) ;;
  max_response_prompt <-
    (perform (Template_render max_prompt facts) : prog string) ;;
  ar_utils <- (perform ArUtils : prog unit) ;;
  insights <-
    (perform (get_llm_response insight_template) : prog (option string)) ;;
  let general_vars := general_vars title subtitle warnings insights in
  r <- render_tables tables general_vars dim_col_label footnotes viz_layout
         [] [] ;;
  let '(viz_list, export_data) := r in
  Ret (viz_list, insights, max_response_prompt, export_data).

(** *** [kpi_performance] *)

(** Line 119: the table the facts are drawn from. *)
Definition first_table (tables : list (string * DataFrame)) (df : DataFrame)
  : result DataFrame :=
  if negb (Nat.eqb (length tables) 0) then subscript0 (map snd tables)
  else Ok df.

(** Lines 129-134: the warning shown, once the limitation note is added. *)
Definition add_limitation_note (warning_message : option string)
    (facts_limitation_note : option string) : option string :=
  if truthy_str facts_limitation_note then
    if truthy_str warning_message then
      Some (default "" warning_message +:+ " "
            +:+ default "" facts_limitation_note)
    else facts_limitation_note
  else warning_message.

(** Line 152: the suggestions kept as follow-up questions. *)
Definition followup_questions (followups : list (gmap string pyval))
  : list SuggestedQuestion.t :=
  map (fun f => SuggestedQuestion.mk (dict_get f "label") (dict_get f "question"))
    (filter (fun f => truthy (dict_get f "label")) followups).

(** The number of rows asked of the fact limiter (line 122). *)
Definition top_n : nat := 5.

(** The skill handler, lines 98-154.  The [print] of line 107 writes to the
    standard output and is left out. *)
Definition kpi_performance (parameters : SkillInput) : prog SkillOutput.t :=
  let env := SimpleNamespace (arguments parameters) in
  env <- (perform (KPIPerformanceTemplateParameterSetup env) : prog Env) ;;
  kp <- (perform (from_env env) : prog KPIPerformance.t) ;;
  r <- (perform (run_from_env kp) : prog (DataFrame * KPIPerformance.t)) ;;
  let '(df, kp) := r in
  breakouts <- lift (kpi_parameter env "breakouts") ;;
  r <-
    (perform (get_display_tables kp (KPIPerformance.include_ranks kp)
                breakouts)
     : prog (list (string * DataFrame) * gmap string string
             * KPIPerformance.t)) ;;
  let '(tables, footnotes, kp) := r in
  let param_info :=
    map (fun kv => ParameterDisplayDescription.mk kv.1 kv.2)
      (KPIPerformance.paramater_display_infomation kp) in
  first_table <- lift (first_table tables df) ;;
  r <-
    (perform (limit_facts_to_top_n kp first_table top_n)
     : prog (DataFrame * option string * KPIPerformance.t)) ;;
  let '(facts_df, facts_limitation_note, kp) := r in
  let insights_dfs := [KPIPerformance.df_notes kp; facts_df] in
  r <-
    (perform (get_suggestions kp)
     : prog (list (gmap string pyval) * KPIPerformance.t)) ;;
  let '(followups, kp) := r in
  let warning_message :=
    add_limitation_note (KPIPerformance.warning_message kp)
      facts_limitation_note in
  dim_col_label <- lift (subscript0 (KPIPerformance.dimensions kp)) ;;
  r <- render_layout tables (KPIPerformance.title kp)
         (KPIPerformance.subtitle kp) dim_col_label insights_dfs
         warning_message footnotes (max_prompt (arguments parameters))
         (insight_prompt (arguments parameters))
         (table_viz_layout (arguments parameters)) ;;
  let '(viz, _, final_prompt, export_data) := r in
  Ret (SkillOutput.mk final_prompt None viz param_info
         (followup_questions followups)
         (map (fun kv => ExportData.mk kv.1 kv.2) export_data)).

(** ** What a run shows

    Projections of the trace: what the adapter handed to a collaborator and
    what it got back. *)

(** The exception a call ended with. *)
Definition raised (ev : event) : option exn :=
  match ev_result ev with
  | Err e => Some e
  | Ok _ => None
  end.

Definition errors (t : list event) : list exn := omap raised t.

(** The successful reply to a call of the shape [c], read at type [A]. *)
Definition answer {A : Type} (pick : forall c : call, option (reply c -> A))
    (ev : event) : option A :=
  match pick (ev_call ev), ev_result ev with
  | Some f, Ok r => Some (f r)
  | _, _ => None
  end.

(** Template, facts and outcome of each rendering of a prompt. *)
Definition rendering (ev : event)
  : option (string * list (list pyval) * result string) :=
  match ev with
  | Event (Template_render template facts) r => Some (template, facts, r)
  | _ => None
  end.

Definition renderings (t : list event) := omap rendering t.

(** The facts handed to the template renderer. *)
Definition prompt_facts (t : list event) : list (list (list pyval)) :=
  map (fun x => x.1.2) (renderings t).

(** The prompts sent to the LLM client, and its replies. *)
Definition llm_prompts (t : list event) : list string :=
  omap (fun ev => match ev_call ev with
                  | get_llm_response prompt => Some prompt
                  | _ => None
                  end) t.

Definition llm_replies (t : list event) : list (option string) :=
  omap (answer (fun c => match c with
                         | get_llm_response _ => Some (fun r => r)
                         | _ => None
                         end)) t.

(** The primary result table returned by [run_from_env]. *)
Definition run_replies (t : list event) : list DataFrame :=
  omap (answer (fun c => match c with
                         | run_from_env _ => Some (fun r => r.1)
                         | _ => None
                         end)) t.

(** The display tables and footnotes returned by the engine. *)
Definition display_tables_replies (t : list event)
  : list (list (string * DataFrame) * gmap string string) :=
  omap (answer (fun c => match c with
                         | get_display_tables _ _ _ => Some (fun r => r.1)
                         | _ => None
                         end)) t.

(** The table and row count given to the fact limiter, and what it
    returned: the limited table and the limitation note. *)
Definition limiter_requests (t : list event) : list (DataFrame * nat) :=
  omap (fun ev => match ev_call ev with
                  | limit_facts_to_top_n _ df n => Some (df, n)
                  | _ => None
                  end) t.

Definition limiter_replies (t : list event)
  : list (DataFrame * option string) :=
  omap (answer (fun c => match c with
                         | limit_facts_to_top_n _ _ _ => Some (fun r => r.1)
                         | _ => None
                         end)) t.

(** The suggestions returned by the engine, with the engine object as
    [get_suggestions] left it. *)
Definition suggestions_replies (t : list event)
  : list (list (gmap string pyval) * KPIPerformance.t) :=
  omap (answer (fun c => match c with
                         | get_suggestions _ => Some (fun r => r)
                         | _ => None
                         end)) t.

(** The table-specific variables returned by [get_table_layout_vars_kpi]. *)
Definition table_vars_replies (t : list event) : list (gmap string pyval) :=
  omap (answer (fun c => match c with
                         | get_table_layout_vars_kpi _ _ => Some (fun r => r)
                         | _ => None
                         end)) t.

(** The layout and the variables handed to the layout engine, one pair per
    visualization. *)
Definition layout_requests (t : list event)
  : list (pyval * gmap string pyval) :=
  omap (fun ev => match ev_call ev with
                  | wire_layout viz_layout vars => Some (viz_layout, vars)
                  | _ => None
                  end) t.

Definition layout_vars (t : list event) : list (gmap string pyval) :=
  map snd (layout_requests t).

(** ** The fact limiter's contract *)

(** Modelled from the spec: the fact limiter [limit_facts_to_top_n] of the
    analysis engine, whose code is not part of this repository.  It returns
    the first [top_n] rows in their order and, when rows were left out, a note
    that states how many; the wording of the note is the engine's, given here
    as a function of the omitted count. *)
Definition limit_facts_spec (wording : nat -> string) (df : DataFrame)
    (top_n : nat) : DataFrame * option string :=
  ({| df_columns := df_columns df; df_rows := take top_n (df_rows df) |},
   if decide (length (df_rows df) <= top_n) then None
   else Some (wording (length (df_rows df) - top_n))).

(** A world whose fact limiter keeps that contract whenever it answers. *)
Definition fact_limiter_contract (wording : nat -> string) (h : handler)
  : Prop :=
  forall kp df n r,
    h (limit_facts_to_top_n kp df n) = Ok r ->
    r.1 = limit_facts_spec wording df n.

(** ** A stand-in world

    Stand-ins for the collaborators, for running the adapter on concrete
    inputs. *)

(** *** JSON decoder

    Decodes the JSON documents made of objects, arrays, strings with the
    single-character escapes, integers, [true], [false] and [null]; a
    repeated member name keeps its last value. *)
Definition is_json_space (c : ascii) : bool :=
  let n := nat_of_ascii c in
  ((n =? 32) || (n =? 9) || (n =? 10) || (n =? 13))%nat.

Fixpoint skip_space (s : string) : string :=
  match s with
  | String c s' => if is_json_space c then skip_space s' else s
  | EmptyString => EmptyString
  end.

(** The characters after an opening quote, up to the closing one. *)
Fixpoint decode_chars (s : string) : option (string * string) :=
  match s with
  | EmptyString => None
  | String "034"%char s' => Some (EmptyString, s')
  | String "\"%char (String e s') =>
      let unescaped :=
        match e with
        | "034"%char | "\"%char | "/"%char => Some e
        | "n"%char => Some "010"%char
        | "t"%char => Some "009"%char
        | "r"%char => Some "013"%char
        | "b"%char => Some "008"%char
        | "f"%char => Some "012"%char
        | _ => None
        end in
      match unescaped, decode_chars s' with
      | Some c, Some (body, rest) => Some (String c body, rest)
      | _, _ => None
      end
  | String c s' =>
      match decode_chars s' with
      | Some (body, rest) => Some (String c body, rest)
      | None => None
      end
  end.

Definition digit_of (c : ascii) : option Z :=
  let n := nat_of_ascii c in
  if ((48 <=? n) && (n <=? 57))%nat then Some (Z.of_nat n - 48)%Z else None.

Fixpoint decode_digits (s : string) (acc : Z) : Z * string :=
  match s with
  | String c s' =>
      match digit_of c with
      | Some d => decode_digits s' (10 * acc + d)%Z
      | None => (acc, s)
      end
  | EmptyString => (acc, s)
  end.

Definition decode_literal (word : string) (v : pyval) (s : string)
  : option (pyval * string) :=
  if String.prefix word s
  then Some (v, String.substring (String.length word)
                  (String.length s - String.length word) s)
  else None.

Fixpoint decode_value (fuel : nat) (s : string) : option (pyval * string) :=
  match fuel with
  | O => None
  | S fuel =>
      match skip_space s with
      | String "{"%char s' =>
          match skip_space s' with
          | String "}"%char rest => Some (PDict [], rest)
          | s'' =>
              match decode_members fuel s'' [] with
              | Some (d, rest) => Some (PDict d, rest)
              | None => None
              end
          end
      | String "["%char s' =>
          match skip_space s' with
          | String "]"%char rest => Some (PList [], rest)
          | s'' =>
              match decode_elements fuel s'' with
              | Some (l, rest) => Some (PList l, rest)
              | None => None
              end
          end
      | String "034"%char s' =>
          match decode_chars s' with
          | Some (body, rest) => Some (PStr body, rest)
          | None => None
          end
      | String "-"%char (String c s') =>
          match digit_of c with
          | Some d =>
              let '(z, rest) := decode_digits s' d in Some (PInt (- z), rest)
          | None => None
          end
      | String c s' as s0 =>
          match digit_of c with
          | Some d => let '(z, rest) := decode_digits s' d in Some (PInt z, rest)
          | None =>
              match decode_literal "true" (PBool true) s0 with
              | Some r => Some r
              | None =>
                  match decode_literal "false" (PBool false) s0 with
                  | Some r => Some r
                  | None => decode_literal "null" PNone s0
                  end
              end
          end
      | EmptyString => None
      end
  end
with decode_elements (fuel : nat) (s : string)
  : option (list pyval * string) :=
  match fuel with
  | O => None
  | S fuel =>
      match decode_value fuel s with
      | Some (v, rest) =>
          match skip_space rest with
          | String ","%char rest' =>
              match decode_elements fuel rest' with
              | Some (l, rest'') => Some (v :: l, rest'')
              | None => None
              end
          | String "]"%char rest' => Some ([v], rest')
          | _ => None
          end
      | None => None
      end
  end
with decode_members (fuel : nat) (s : string) (d : list (string * pyval))
  : option (list (string * pyval) * string) :=
  match fuel with
  | O => None
  | S fuel =>
      match skip_space s with
      | String "034"%char s' =>
          match decode_chars s' with
          | Some (k, rest) =>
              match skip_space rest with
              | String ":"%char rest' =>
                  match decode_value fuel rest' with
                  | Some (v, rest'') =>
                      match skip_space rest'' with
                      | String ","%char rest3 =>
                          decode_members fuel rest3 (dict_set k v d)
                      | String "}"%char rest3 => Some (dict_set k v d, rest3)
                      | _ => None
                      end
                  | None => None
                  end
              | _ => None
              end
          | None => None
          end
      | _ => None
      end
  end.

Definition JSONDecodeError := Exception "JSONDecodeError".

Definition decode_json (s : string) : result pyval :=
  match decode_value (S (String.length s)) s with
  | Some (v, rest) =>
      match skip_space rest with
      | EmptyString => Ok v
      | _ => Err (JSONDecodeError "Extra data")
      end
  | None => Err (JSONDecodeError "Expecting value")
  end.

(** *** The collaborators *)

(** What a stand-in world is made of: the engine object (its methods leave it
    as it is), the tables and suggestions the engine returns, and the LLM. *)
Record world : Type := mkWorld {
  engine : KPIPerformance.t;
  result_table : DataFrame;
  display_tables : list (string * DataFrame);
  table_footnotes : gmap string string;
  suggestions : list (gmap string pyval);
  llm : string -> option string
}.

Definition note_wording (omitted : nat) : string :=
  "Showing top rows only: " +:+ pretty omitted +:+ " rows omitted.".

(** The rendered prompt names the template and the size of each fact list. *)
Definition stand_in_render (template : string) (facts : list (list pyval))
  : string :=
  fold_left (fun out f => out +:+ " " +:+ pretty (length f)) facts
    (template +:+ " <- facts:").

Definition stand_in (w : world) : handler :=
  fun c =>
    match c return result (reply c) with
    | KPIPerformanceTemplateParameterSetup env =>
        Ok {| env_arguments := env_arguments env;
              kpi_parameters :=
                Some (list_to_map [
                  ("metrics", PList (map PStr (metrics (env_arguments env))));
                  ("breakouts",
                    PList (map PStr (breakouts (env_arguments env))));
                  ("limit_n", PInt (limit_n (env_arguments env)))]) |}
    | from_env _ => Ok (engine w)
    | run_from_env kp => Ok (result_table w, kp)
    | get_display_tables kp _ _ => Ok (display_tables w, table_footnotes w, kp)
    | limit_facts_to_top_n kp df n => Ok (limit_facts_spec note_wording df n, kp)
    | get_suggestions kp => Ok (suggestions w, kp)
    | Template_render template facts => Ok (stand_in_render template facts)
    | ArUtils => Ok tt
    | get_llm_response prompt => Ok (llm w prompt)
    | get_table_layout_vars_kpi table dim_col_label =>
        Ok (list_to_map [
          ("col_defs", PList (map PStr (df_columns table)));
          ("data", PList (map PList (df_rows table)));
          ("dim_col_label", PStr dim_col_label)])
    | json_decode s => decode_json s
    | wire_layout viz_layout vars =>
        Ok (PDict [("layoutJson", viz_layout);
                   ("inputVariables", PDict (map_to_list vars))])
    end.

(** The world [h], except that the calls selected by [broken] raise [e]. *)
Definition failing (broken : call -> bool) (e : exn) (h : handler) : handler :=
  fun c => if broken c then Err e else h c.

(** *** A scenario: spend by region *)

Definition region_row (region : string) (spend : Z) : list pyval :=
  [PStr region; PInt spend].

Definition spend_by_region : DataFrame :=
  {| df_columns := ["Region"; "Spend"];
     df_rows := [region_row "North" 120; region_row "South" 95;
                 region_row "East" 80; region_row "West" 64;
                 region_row "Central" 31] |}.

Definition spend_by_channel : DataFrame :=
  {| df_columns := ["Channel"; "Spend"];
     df_rows := [region_row "TV" 200; region_row "Radio" 90;
                 region_row "Print" 60; region_row "Search" 25;
                 region_row "Social" 10; region_row "Outdoor" 3;
                 region_row "Cinema" 1] |}.

Definition no_notes : DataFrame := {| df_columns := []; df_rows := [] |}.

Definition spend_engine : KPIPerformance.t :=
  {| KPIPerformance.include_ranks := PBool false;
     KPIPerformance.paramater_display_infomation :=
       [("Metrics", PStr "Spend"); ("Breakouts", PStr "Region")];
     KPIPerformance.df_notes := no_notes;
     KPIPerformance.warning_message := None;
     KPIPerformance.title := Some "Spend";
     KPIPerformance.subtitle := Some "by Region";
     KPIPerformance.dimensions := ["Region"] |}.

Definition spend_suggestions : list (gmap string pyval) :=
  [ list_to_map [("label", PStr "Trend"); ("question", PStr "How did Spend trend?")];
    list_to_map [("question", PStr "Which Region grew fastest?")];
    list_to_map [("label", PStr ""); ("question", PStr "What drives Spend?")];
    list_to_map [("label", PStr "Drivers")] ].

Definition spend_world : world :=
  {| engine := spend_engine;
     result_table := spend_by_region;
     display_tables := [("Spend by Region", spend_by_region)];
     table_footnotes := ∅;
     suggestions := spend_suggestions;
     llm := fun prompt => Some ("Insight for: " +:+ prompt) |}.

Definition spend_parameters : SkillInput :=
  {| arguments :=
       {| metrics := ["Spend"];
          metric_groups := [];
          breakouts := ["Region"];
          periods := [];
          growth_type := "none";
          growth_trend := None;
          other_filters := [];
          max_prompt := "Answer briefly.";
          insight_prompt := "Write insights.";
          table_viz_layout := PStr "{}";
          limit_n := 2 |} |}.

(** *** Further scenarios *)

(** Two display tables. *)
Definition two_tables_world : world :=
  {| engine := spend_engine;
     result_table := spend_by_region;
     display_tables := [("Spend by Region", spend_by_region);
                        ("Spend by Channel", spend_by_channel)];
     table_footnotes := ∅;
     suggestions := [];
     llm := fun prompt => Some ("Insight for: " +:+ prompt) |}.

(** No display table: only the primary result table. *)
Definition no_tables_world : world :=
  {| engine := spend_engine;
     result_table := spend_by_region;
     display_tables := [];
     table_footnotes := ∅;
     suggestions := [];
     llm := fun prompt => Some ("Insight for: " +:+ prompt) |}.

(** Seven rows, a warning of the engine, a footnote, no title, and an LLM
    that returns the empty string. *)
Definition channel_engine : KPIPerformance.t :=
  {| KPIPerformance.include_ranks := PBool false;
     KPIPerformance.paramater_display_infomation := [];
     KPIPerformance.df_notes := no_notes;
     KPIPerformance.warning_message := Some "No prior period.";
     KPIPerformance.title := None;
     KPIPerformance.subtitle := Some "";
     KPIPerformance.dimensions := ["Channel"] |}.

Definition channel_footnotes : gmap string string :=
  {[ "Spend by Channel" := "  Net of rebates. " ]}.

Definition channel_world : world :=
  {| engine := channel_engine;
     result_table := spend_by_channel;
     display_tables := [("Spend by Channel", spend_by_channel)];
     table_footnotes := channel_footnotes;
     suggestions := [];
     llm := fun _ => Some "" |}.

(** The variables the stand-in layout engine receives for the channel
    table. *)
Definition channel_table_vars : gmap string pyval :=
  list_to_map [
    ("col_defs", PList [PStr "Channel"; PStr "Spend"]);
    ("data", PList (map PList (df_rows spend_by_channel)));
    ("dim_col_label", PStr "Channel")].

Definition channel_vars : gmap string pyval :=
  set_footer (Some "  Net of rebates. ") channel_table_vars
  ∪ general_vars None (Some "")
      (Some "No prior period. Showing top rows only: 2 rows omitted.")
      (Some "").

(** An LLM client that times out. *)
Definition llm_timeout : exn := Exception "TimeoutError" "LLM request timed out".

Definition llm_down : handler :=
  failing (fun c => match c with get_llm_response _ => true | _ => false end)
    llm_timeout (stand_in spend_world).

(** ** Phases of a run *)

(** The calls made by [render_layout], and among them those of its loop. *)
Definition render_phase_call (c : call) : bool :=
  match c with
  | Template_render _ _ | ArUtils | get_llm_response _
  | get_table_layout_vars_kpi _ _ | json_decode _ | wire_layout _ _ => true
  | _ => false
  end.

Definition loop_call (c : call) : bool :=
  match c with
  | get_table_layout_vars_kpi _ _ | json_decode _ | wire_layout _ _ => true
  | _ => false
  end.

(** [export_data] after the loop has stored every item of [items]. *)
Definition exported (items export_data : list (string * DataFrame))
  : list (string * DataFrame) :=
  fold_left (fun d kv => dict_set kv.1 kv.2 d) items export_data.

(** The number of rows of the limited table among the facts: the facts are
    the records of [insights_dfs], whose second table is [facts_df]. *)
Definition fact_rows (facts : list (list pyval)) : nat :=
  length (default [] (facts !! 1%nat)).

(** The bound as the specification words it: the facts handed to the prompt
    renderer have at most [limit_n] rows. *)
Definition fact_rows_bounded_by_limit_n (h : handler) (p : SkillInput)
  : Prop :=
  forall facts,
    facts ∈ prompt_facts (trace h (kpi_performance p)) ->
    (Z.of_nat (fact_rows facts) <= limit_n (arguments p))%Z.

(** The selection of the facts table as the specification words it: defined
    only for a non-empty mapping of tables. *)
Definition first_table_needs_tables : Prop :=
  forall tables df ft, first_table tables df = Ok ft -> tables <> [].

(** What a variable mapping [vars] shows of the warning, given the engine's
    warning message and the fact limiter's note. *)
Definition warning_shown (warning_message note : option string)
    (vars : gmap string pyval) : Prop :=
  (truthy_str warning_message = false -> truthy_str note = false ->
   vars !! "hide_growth_warning" = Some (PBool true)) /\
  (truthy_str warning_message = true \/ truthy_str note = true ->
   vars !! "hide_growth_warning" = Some (PBool false)) /\
  (forall w n,
     warning_message = Some w -> note = Some n ->
     truthy_str warning_message = true -> truthy_str note = true ->
     vars !! "warning" = Some (PStr (w +:+ " " +:+ n))).

(** What a variable mapping [vars] shows of the title and the subtitle. *)
Definition headlines_shown (title subtitle : option string)
    (vars : gmap string pyval) : Prop :=
  (truthy_str title = false -> vars !! "headline" = Some (PStr "Total")) /\
  (truthy_str subtitle = false ->
   vars !! "sub_headline" = Some (PStr "Trend Analysis")) /\
  (forall s, title = Some s -> truthy_str title = true ->
             vars !! "headline" = Some (PStr s)) /\
  (forall s, subtitle = Some s -> truthy_str subtitle = true ->
             vars !! "sub_headline" = Some (PStr s)).

(** What a variable mapping [vars] shows of a table's footnote. *)
Definition footer_shown (footnote : option string) (vars : gmap string pyval)
  : Prop :=
  (footnote = None \/ footnote = Some "" ->
   vars !! "hide_footer" = Some (PBool true) /\
   vars !! "footer" = Some (PStr "No additional info.")) /\
  (forall s, footnote = Some s -> s <> "" ->
   vars !! "hide_footer" = Some (PBool false) /\
   vars !! "footer" = Some (PStr (strip s))).

(** *** Scenarios for the edge cases *)

(** The JSON text of a string without special characters. *)
Definition quoted (s : string) : string :=
  String "034"%char (s +:+ String "034"%char EmptyString).

(** A layout whose decoding is again a JSON text. *)
Definition nested_layout : pyval := PStr (quoted "{}").

(** A renderer that rejects the max prompt of the spend scenario. *)
Definition template_error : exn :=
  Exception "TemplateSyntaxError" "unexpected end of template".

Definition max_prompt_broken : handler :=
  failing (fun c => match c with
                    | Template_render template _ =>
                        String.eqb template "Answer briefly."
                    | _ => false
                    end)
    template_error (stand_in spend_world).

(** The world [h], except that the engine's setup turns [env] into
    [setup env]. *)
Definition with_setup (setup : Env -> Env) (h : handler) : handler :=
  fun c =>
    match c return result (reply c) with
    | KPIPerformanceTemplateParameterSetup env => Ok (setup env)
    | c => h c
    end.

(** A setup that records the metrics only. *)
Definition metrics_only (env : Env) : Env :=
  {| env_arguments := env_arguments env;
     kpi_parameters :=
       Some {[ "metrics" := PList (map PStr (metrics (env_arguments env))) ]} |}.



(** An engine that reports no dimension. *)
Definition no_dimension_world : world :=
  {| engine :=
       {| KPIPerformance.include_ranks := PBool false;
          KPIPerformance.paramater_display_infomation := [];
          KPIPerformance.df_notes := no_notes;
          KPIPerformance.warning_message := None;
          KPIPerformance.title := Some "Spend";
          KPIPerformance.subtitle := None;
          KPIPerformance.dimensions := [] |};
     result_table := spend_by_region;
     display_tables := [("Spend by Region", spend_by_region)];
     table_footnotes := ∅;
     suggestions := [];
     llm := fun prompt => Some ("Insight for: " +:+ prompt) |}.

(** Seven rows and no warning of the engine: the note is the only warning. *)
Definition quiet_channel_world : world :=
  {| engine := spend_engine;
     result_table := spend_by_channel;
     display_tables := [("Spend by Channel", spend_by_channel)];
     table_footnotes := ∅;
     suggestions := [];
     llm := fun prompt => Some ("Insight for: " +:+ prompt) |}.

(** A footnote of blanks. *)
Definition blank_footnotes : gmap string string :=
  {[ "Spend by Channel" := "   " ]}.

(** ** Further projections of a trace *)

(** The documents the JSON decoder returned. *)
Definition json_replies (t : list event) : list pyval :=
  omap (answer (fun c => match c with
                         | json_decode _ => Some (fun r => r)
                         | _ => None
                         end)) t.

(** The rendered layouts the layout engine returned. *)
Definition layout_replies (t : list event) : list pyval :=
  omap (answer (fun c => match c with
                         | wire_layout _ _ => Some (fun r => r)
                         | _ => None
                         end)) t.

(** The engine object as [get_display_tables] left it. *)
Definition display_engine_replies (t : list event) : list KPIPerformance.t :=
  omap (answer (fun c => match c with
                         | get_display_tables _ _ _ => Some (fun r => r.2)
                         | _ => None
                         end)) t.

(** The names [general_vars] defines, and the two that lines 190-191 write
    into the table's variables. *)
Definition general_keys : list string :=
  ["headline"; "sub_headline"; "hide_growth_warning"; "exec_summary";
   "warning"].

Definition footer_keys : list string := ["hide_footer"; "footer"].

(** A string made of whitespace only. *)
Fixpoint all_space (s : string) : bool :=
  match s with
  | EmptyString => true
  | String c s' => isspace c && all_space s'
  end.

(** The last character of a string. *)
Fixpoint last_char (s : string) : option ascii :=
  match s with
  | EmptyString => None
  | String c EmptyString => Some c
  | String _ s' => last_char s'
  end.

(** The engine object as [limit_facts_to_top_n] left it, with the limited
    table. *)
Definition limiter_engine_replies (t : list event)
  : list (DataFrame * KPIPerformance.t) :=
  omap (answer (fun c => match c with
                         | limit_facts_to_top_n _ _ _ =>
                             Some (fun r => (r.1.1, r.2))
                         | _ => None
                         end)) t.

(** * Properties *)

#[local] Arguments general_vars : simpl never.
#[local] Arguments set_footer : simpl never.
#[local] Arguments dim_note : simpl never.
#[local] Arguments to_dict_records : simpl never.
#[local] Arguments add_limitation_note : simpl never.
#[local] Arguments followup_questions : simpl never.
#[local] Arguments first_table : simpl never.
#[local] Arguments kpi_parameter : simpl never.
#[local] Arguments render_layout : simpl never.

(** ** Runs *)

Section Runs.
Context (h : handler).

Lemma outcome_bind {A B : Type} (p : prog A) (f : A -> prog B) :
  outcome h (bind p f) =
  match outcome h p with
  | Ok a => outcome h (f a)
  | Err e => Err e
  end.
Proof.
  induction p as [a|e|c k IH]; cbn; try reflexivity.
  destruct (h c); [apply IH | reflexivity].
Qed.

Lemma trace_bind {A B : Type} (p : prog A) (f : A -> prog B) :
  trace h (bind p f) =
  trace h p ++ match outcome h p with
               | Ok a => trace h (f a)
               | Err _ => []
               end.
Proof.
  induction p as [a|e|c k IH]; cbn; try reflexivity.
  f_equal. destruct (h c); [apply IH | reflexivity].
Qed.

(** A continuation that makes no call adds nothing to the trace. *)
Lemma trace_bind_silent {A B : Type} (p : prog A) (f : A -> prog B) :
  (forall a, trace h (f a) = []) -> trace h (bind p f) = trace h p.
Proof.
  intros Hf. rewrite trace_bind.
  destruct (outcome h p); [rewrite Hf|]; apply app_nil_r.
Qed.

(** No program catches: an exception a collaborator raised is the outcome. *)
Lemma raised_is_outcome {A : Type} (p : prog A) (ev : event) (e : exn) :
  ev ∈ trace h p -> raised ev = Some e -> outcome h p = Err e.
Proof.
  induction p as [a|e'|c k IH]; cbn.
  - intros H; by apply elem_of_nil in H.
  - intros H; by apply elem_of_nil in H.
  - intros [->|H]%elem_of_cons.
    + unfold raised. cbn. destruct (h c); [done|]. by intros [= ->].
    + destruct (h c) as [r|e'].
      * by apply IH.
      * by apply elem_of_nil in H.
Qed.

End Runs.

(** ** Reading a trace *)

Lemma omap_None_Forall {A B : Type} (f : A -> option B) (l : list A) :
  Forall (fun x => f x = None) l -> omap f l = [].
Proof. induction 1 as [|x l Hx _ IH]; cbn; [done|]. by rewrite Hx. Qed.

Lemma layout_vars_cons ev t :
  layout_vars (ev :: t) =
  match ev_call ev with
  | wire_layout _ vars => vars :: layout_vars t
  | _ => layout_vars t
  end.
Proof. unfold layout_vars, layout_requests. cbn. by destruct (ev_call ev). Qed.

Lemma table_vars_replies_cons c r t :
  table_vars_replies (Event c r :: t) =
  match c return result (reply c) -> _ with
  | get_table_layout_vars_kpi _ _ => fun r =>
      match r with
      | Ok d => d :: table_vars_replies t
      | Err _ => table_vars_replies t
      end
  | _ => fun _ => table_vars_replies t
  end r.
Proof.
  unfold table_vars_replies, answer. cbn.
  destruct c; try reflexivity. by destruct r.
Qed.

Lemma loop_no_prompts t :
  Forall (fun ev => loop_call (ev_call ev) = true) t ->
  renderings t = [] /\ llm_prompts t = [] /\ llm_replies t = [].
Proof.
  intros H. repeat split; apply omap_None_Forall;
    (eapply Forall_impl; [apply H|]);
    intros [c r]; unfold answer; cbn; by destruct c.
Qed.

Lemma render_phase_no_engine t :
  Forall (fun ev => render_phase_call (ev_call ev) = true) t ->
  run_replies t = [] /\ display_tables_replies t = [] /\
  limiter_requests t = [] /\ limiter_replies t = [] /\
  suggestions_replies t = [].
Proof.
  intros H. repeat split; apply omap_None_Forall;
    (eapply Forall_impl; [apply H|]);
    intros [c r]; unfold answer; cbn; by destruct c.
Qed.

(** Unfolds the projections, so that they compute on the events at hand. *)
Ltac observe :=
  unfold errors, renderings, prompt_facts, llm_prompts, llm_replies,
    run_replies, display_tables_replies, limiter_requests, limiter_replies,
    suggestions_replies, table_vars_replies, layout_vars, layout_requests,
    answer, raised in *;
  cbn in *.

(** Splits the memberships in explicit lists. *)
Ltac members :=
  repeat match goal with
         | H : _ ∈ [] |- _ => by apply elem_of_nil in H
         | H : _ ∈ [_] |- _ => apply list_elem_of_singleton in H
         | H : _ ∈ _ :: _ |- _ => apply elem_of_cons in H as [H|H]
         end.

(** ** The adapter's own operations *)

Lemma first_table_total tables df :
  first_table tables df
  = Ok (match tables with [] => df | (_, table) :: _ => table end).
Proof. by destruct tables as [|[name table] tables]. Qed.

Lemma followup_questions_spec fs f :
  f ∈ fs ->
  (SuggestedQuestion.mk (dict_get f "label") (dict_get f "question")
     ∈ followup_questions fs
   <-> exists l, f !! "label" = Some l /\ truthy l = true).
Proof.
  intros Hf. unfold followup_questions. rewrite list_elem_of_fmap.
  split.
  - intros (g & [= Hl Hq] & Hg%list_elem_of_filter).
    destruct Hg as [Hg _]. rewrite <- Hl in Hg. unfold dict_get in Hg.
    destruct (f !! "label") as [l|]; [|done].
    exists l. split; [done|]. by apply Is_true_true.
  - intros (l & Hl & Ht). exists f. split; [done|].
    apply list_elem_of_filter. split; [|done].
    unfold dict_get. rewrite Hl. cbn. by apply Is_true_true.
Qed.

Lemma dict_set_fresh {V : Type} (k : string) (v : V) d :
  k ∉ map fst d -> dict_set k v d = d ++ [(k, v)].
Proof.
  induction d as [|[k' v'] d IH]; cbn; [done|].
  intros H. apply not_elem_of_cons in H as [Hk H].
  destruct (decide (k' = k)); [congruence|]. by rewrite IH.
Qed.

(** Storing the items of a mapping into an empty one rebuilds it. *)
Lemma exported_NoDup items : forall export_data,
  NoDup (map fst (export_data ++ items)) ->
  exported items export_data = export_data ++ items.
Proof.
  induction items as [|[k v] items IH]; intros d Hd; cbn.
  - by rewrite app_nil_r.
  - rewrite dict_set_fresh.
    + rewrite IH; rewrite <- app_assoc; done.
    + rewrite map_app in Hd. apply NoDup_app in Hd as (_ & Hd & _).
      intros Hk. apply (Hd _ Hk). cbn. left.
Qed.

Lemma to_dict_records_length df :
  length (to_dict_records df) = length (df_rows df).
Proof. unfold to_dict_records. apply length_map. Qed.

Lemma limit_facts_spec_rows wording df n facts_df note :
  (facts_df, note) = limit_facts_spec wording df n ->
  length (df_rows facts_df) <= n.
Proof. intros [= -> _]. cbn. rewrite length_take. lia. Qed.

Lemma limit_facts_spec_fits wording df n facts_df note :
  (facts_df, note) = limit_facts_spec wording df n ->
  length (df_rows df) <= n ->
  to_dict_records facts_df = to_dict_records df /\ note = None.
Proof.
  intros [= -> ->] Hn. unfold to_dict_records. cbn.
  rewrite take_ge by done. split; [done|].
  by destruct (decide (length (df_rows df) <= n)).
Qed.

(** ** Variable mappings *)

Lemma general_vars_lookup title subtitle warnings insights :
  let gv := general_vars title subtitle warnings insights in
  gv !! "headline"
  = Some (if truthy_str title then of_optional_str title else PStr "Total") /\
  gv !! "sub_headline"
  = Some (if truthy_str subtitle then of_optional_str subtitle
          else PStr "Trend Analysis") /\
  gv !! "hide_growth_warning"
  = Some (PBool (if truthy_str warnings then false else true)) /\
  gv !! "exec_summary"
  = Some (if truthy_str insights then of_optional_str insights
          else PStr "No Insight.") /\
  gv !! "warning" = Some (of_optional_str warnings).
Proof. repeat split. Qed.

(** The footer entries are written last into the table's variables, which
    take precedence in the merge. *)
Lemma merged_footer note (d gv : gmap string pyval) :
  (set_footer note d ∪ gv) !! "hide_footer"
  = Some (PBool (if truthy_str note then false else true)) /\
  (set_footer note d ∪ gv) !! "footer"
  = Some (PStr (if truthy_str note then strip (default "" note)
                else "No additional info.")).
Proof.
  unfold set_footer. split.
  - erewrite lookup_union_Some_l; [done|].
    rewrite lookup_insert_ne by done. by rewrite lookup_insert_eq.
  - erewrite lookup_union_Some_l; [done|]. by rewrite lookup_insert_eq.
Qed.

(** A general variable shows through unless the table's variables define the
    same name. *)
Lemma merged_general note (d gv : gmap string pyval) (k : string) :
  k <> "footer" -> k <> "hide_footer" -> d !! k = None ->
  (set_footer note d ∪ gv) !! k = gv !! k.
Proof.
  intros Hf Hh Hd. apply lookup_union_r. unfold set_footer.
  by rewrite !lookup_insert_ne.
Qed.

(** ** The loop of [render_layout] *)

Lemma render_tables_calls h gv dim fn items :
  forall vl viz exp,
    Forall (fun ev => loop_call (ev_call ev) = true)
      (trace h (render_tables items gv dim fn vl viz exp)).
Proof.
  induction items as [|[name table] items IH]; intros vl viz exp.
  - constructor.
  - cbn [render_tables trace bind perform].
    constructor; [done|].
    destruct (h (get_table_layout_vars_kpi table dim)) as [d|e]; [|constructor].
    destruct vl; cbn [json_loads bind perform trace]; try constructor; try done.
    destruct (h (json_decode s)) as [doc|e]; [|constructor].
    cbn [trace]. constructor; [done|].
    destruct (h (wire_layout doc _)) as [r|e]; [apply IH|constructor].
Qed.

(** The [i]-th request to the layout engine is made for the [i]-th table,
    with the [i]-th reply of [get_table_layout_vars_kpi]. *)
Lemma render_tables_layout_vars h gv dim fn items :
  forall vl viz exp i v,
    layout_vars (trace h (render_tables items gv dim fn vl viz exp)) !! i
    = Some v ->
    exists name table d,
      items !! i = Some (name, table) /\
      table_vars_replies (trace h (render_tables items gv dim fn vl viz exp))
        !! i = Some d /\
      v = set_footer (dim_note fn name) d ∪ gv.
Proof.
  induction items as [|[name table] items IH]; intros vl viz exp i v.
  - cbn. intros H. inversion H.
  - cbn [render_tables trace bind perform].
    rewrite layout_vars_cons, table_vars_replies_cons. cbn [ev_call].
    destruct (h (get_table_layout_vars_kpi table dim)) as [d|e]; [|by intros H].
    destruct vl; cbn [json_loads bind perform trace]; try by intros H.
    rewrite layout_vars_cons, table_vars_replies_cons. cbn [ev_call].
    destruct (h (json_decode s)) as [doc|e]; [|by intros H].
    cbn [trace]. rewrite layout_vars_cons, table_vars_replies_cons.
    cbn [ev_call].
    destruct i as [|i].
    + intros [= <-]. exists name, table, d. done.
    + cbn [lookup list_lookup].
      destruct (h (wire_layout doc _)) as [r|e]; [|by intros H].
      intros H. apply IH in H as (n' & t' & d' & H1 & H2 & H3).
      exists n', t', d'. done.
Qed.

(** When the loop returns, it has appended one visualization per item, in
    order and titled by the item's name, and stored every item. *)
Lemma render_tables_outcome h gv dim fn items :
  forall vl viz exp viz' exp',
    outcome h (render_tables items gv dim fn vl viz exp) = Ok (viz', exp') ->
    exists new,
      viz' = viz ++ new /\
      map SkillVisualization.title new = map fst items /\
      exp' = exported items exp.
Proof.
  induction items as [|[name table] items IH]; intros vl viz exp viz' exp'.
  - cbn. intros [= <- <-]. exists []. by rewrite app_nil_r.
  - cbn [render_tables outcome bind perform].
    destruct (h (get_table_layout_vars_kpi table dim)) as [d|e]; [|done].
    destruct vl; cbn [json_loads bind perform outcome]; try done.
    destruct (h (json_decode s)) as [doc|e]; [|done].
    cbn [outcome].
    destruct (h (wire_layout doc _)) as [r|e]; [|done].
    intros H. apply IH in H as (new & -> & Ht & ->).
    exists (SkillVisualization.mk name r :: new).
    rewrite <- app_assoc. cbn. by rewrite Ht.
Qed.

(** From the second table on, [viz_layout] holds the decoded document and no
    longer the [str] that [json.loads] needs. *)
Lemma render_tables_second_table (h : handler) gv dim fn name table items s
    viz exp doc :
  items <> [] ->
  h (json_decode s) = Ok doc ->
  (forall s', doc <> PStr s') ->
  exists e,
    outcome h (render_tables ((name, table) :: items) gv dim fn (PStr s) viz
                 exp) = Err e /\
    (errors (trace h (render_tables ((name, table) :: items) gv dim fn
                         (PStr s) viz exp)) = [] ->
     e = TypeError ("the JSON object must be str, bytes or bytearray, not "
                    +:+ type_name doc)).
Proof.
  intros Hitems Hdec Hdoc.
  cbn [render_tables outcome trace bind perform json_loads].
  destruct (h (get_table_layout_vars_kpi table dim)) as [d|e] eqn:E1.
  2:{ exists e. split; [done|]. by observe. }
  rewrite Hdec. cbn [outcome trace].
  destruct (h (wire_layout doc _)) as [r|e] eqn:E2.
  2:{ exists e. split; [done|]. by observe. }
  destruct items as [|[name2 table2] items]; [done|].
  cbn [render_tables outcome trace bind perform].
  destruct (h (get_table_layout_vars_kpi table2 dim)) as [d2|e] eqn:E3.
  2:{ exists e. split; [done|]. by observe. }
  destruct doc; cbn [json_loads bind perform outcome trace];
    try (eexists; split; [done|]; intros _; done).
  by destruct (Hdoc s0).
Qed.

(** ** [render_layout] *)

Section RenderLayout.
Context (h : handler).
Context (tables : list (string * DataFrame)) (title subtitle : option string)
  (dim_col_label : string) (insights_dfs : list DataFrame)
  (warnings : option string) (footnotes : gmap string string)
  (max_prompt insight_prompt : string) (viz_layout : pyval).

Let facts := map to_dict_records insights_dfs.
Let run := render_layout tables title subtitle dim_col_label insights_dfs
             warnings footnotes max_prompt insight_prompt viz_layout.

(** Lines 162-167: the two renderings, the client and its completion. *)
Ltac prepare_narrative :=
  unfold run, render_layout; fold facts; cbn [trace outcome bind perform];
  destruct (h (Template_render insight_prompt facts)) as [it|?] eqn:Hit;
  [ destruct (h (Template_render max_prompt facts)) as [mrp|?] eqn:Hmrp;
    [ destruct (h ArUtils) as [[]|?] eqn:Har;
      [ destruct (h (get_llm_response it)) as [ins|?] eqn:Hins | ] | ] | ].

Lemma render_layout_calls :
  Forall (fun ev => render_phase_call (ev_call ev) = true) (trace h run).
Proof.
  prepare_narrative; repeat (constructor; [done|]); try constructor.
  rewrite trace_bind_silent by (by intros [? ?]).
  eapply Forall_impl; [apply render_tables_calls|].
  intros [c r]; cbn. by destruct c.
Qed.

(** Both prompts are rendered from the records of [insights_dfs], the
    insight prompt first. *)
Lemma render_layout_renderings :
  renderings (trace h run) =
  (insight_prompt, facts, h (Template_render insight_prompt facts)) ::
  match h (Template_render insight_prompt facts) with
  | Ok _ => [(max_prompt, facts, h (Template_render max_prompt facts))]
  | Err _ => []
  end.
Proof.
  prepare_narrative; unfold renderings; cbn; rewrite ?Hit, ?Hmrp; try done.
  rewrite trace_bind_silent by (by intros [? ?]).
  do 2 f_equal. apply loop_no_prompts, render_tables_calls.
Qed.

(** The prompt sent to the LLM client is the rendered insight prompt. *)
Lemma render_layout_llm_prompts prompt :
  prompt ∈ llm_prompts (trace h run) ->
  h (Template_render insight_prompt facts) = Ok prompt.
Proof.
  prepare_narrative.
  - rewrite trace_bind_silent by (by intros [? ?]).
    destruct (loop_no_prompts _ (render_tables_calls h
      (general_vars title subtitle warnings ins) dim_col_label footnotes
      tables viz_layout [] [])) as (_ & Hp & _).
    unfold llm_prompts in *; cbn. rewrite Hp.
    intros H; members; by subst.
  - intros H; observe; members; by subst.
  - intros H; observe; members.
  - intros H; observe; members.
  - intros H; observe; members.
Qed.

Lemma render_layout_layout_vars i v :
  layout_vars (trace h run) !! i = Some v ->
  exists name table d insights,
    tables !! i = Some (name, table) /\
    table_vars_replies (trace h run) !! i = Some d /\
    llm_replies (trace h run) = [insights] /\
    v = set_footer (dim_note footnotes name) d
        ∪ general_vars title subtitle warnings insights.
Proof.
  prepare_narrative; try (by intros H; inversion H).
  rewrite trace_bind_silent by (by intros [? ?]).
  do 4 rewrite layout_vars_cons. do 4 rewrite table_vars_replies_cons.
  cbn [ev_call].
  intros H.
  apply render_tables_layout_vars in H as (name & table & d & H1 & H2 & ->).
  exists name, table, d, ins. repeat split; try done.
  unfold llm_replies. cbn.
  f_equal. apply loop_no_prompts, render_tables_calls.
Qed.

Lemma render_layout_outcome viz insights final_prompt export_data :
  outcome h run = Ok (viz, insights, final_prompt, export_data) ->
  h (Template_render max_prompt facts) = Ok final_prompt /\
  map SkillVisualization.title viz = map fst tables /\
  export_data = exported tables [].
Proof.
  prepare_narrative; try done.
  rewrite outcome_bind.
  destruct (outcome h (render_tables _ _ _ _ _ _ _)) as [[viz' exp']|e] eqn:E;
    [|done].
  cbn. intros [= <- <- <- <-].
  apply render_tables_outcome in E as (new & -> & Ht & ->). done.
Qed.

(** When [render_layout] returns, on a mapping of tables (whose names are
    distinct), it returns one visualization per table, in order and titled
    by the table's name, and exports the mapping itself. *)
Lemma render_layout_returns viz insights final_prompt export_data :
  NoDup (map fst tables) ->
  outcome h run = Ok (viz, insights, final_prompt, export_data) ->
  map SkillVisualization.title viz = map fst tables /\
  export_data = tables.
Proof.
  intros Hnames (_ & Htitles & ->)%render_layout_outcome.
  split; [done|]. by apply (exported_NoDup tables []).
Qed.

Lemma render_layout_second_table name table items s doc :
  tables = (name, table) :: items ->
  items <> [] ->
  viz_layout = PStr s ->
  h (json_decode s) = Ok doc ->
  (forall s', doc <> PStr s') ->
  exists e,
    outcome h run = Err e /\
    (errors (trace h run) = [] ->
     e = TypeError ("the JSON object must be str, bytes or bytearray, not "
                    +:+ type_name doc)).
Proof.
  intros Htables Hitems Hlayout Hdec Hdoc. revert Htables Hlayout.
  prepare_narrative; intros -> ->;
    try (eexists; split; [done|]; by observe).
  rewrite outcome_bind, trace_bind_silent by (by intros [? ?]).
  destruct (render_tables_second_table h
              (general_vars title subtitle warnings ins) dim_col_label
              footnotes name table items s [] [] doc Hitems Hdec Hdoc)
    as (e & -> & He).
  exists e. split; [done|].
  intros H. apply He. revert H. unfold errors. cbn. done.
Qed.

End RenderLayout.

(** ** [kpi_performance] *)

(** Symbolic execution of the analysis phase (lines 109-139): one case per
    outcome of each call and of each fallible operation. *)
Ltac split_reply :=
  repeat match goal with
         | r : reply _ |- _ => cbn in r
         | r : (_ * _)%type |- _ => destruct r
         end.

Ltac step h :=
  cbn [trace outcome bind perform lift];
  lazymatch goal with
  | |- context [match h ?c with _ => _ end] =>
      let E := fresh "E" in
      destruct (h c) eqn:E; split_reply
  | |- context [bind (lift ?r) _] =>
      let E := fresh "E" in
      destruct r eqn:E
  end.

(** In the case that reaches [render_layout], what is known of its trace is
    added to the context. *)
Ltac analysis h :=
  unfold kpi_performance; do 9 (try step h);
  cbn [trace outcome bind perform lift];
  [ rewrite ?outcome_bind, ?trace_bind_silent by (by intros [[[? ?] ?] ?]);
    match goal with
    | |- context [trace h (render_layout ?a ?b ?c ?d ?e ?f ?g ?i ?j ?k)] =>
        let H := fresh "Hengine" in
        pose proof (render_phase_no_engine _
                      (render_layout_calls h a b c d e f g i j k)) as H;
        let H := fresh "Hrenderings" in
        pose proof (render_layout_renderings h a b c d e f g i j k) as H;
        let H := fresh "Hvars" in
        pose proof (render_layout_layout_vars h a b c d e f g i j k) as H
    | _ => idtac
    end
  | .. ].

Ltac rendered h :=
  match goal with
  | |- context [outcome h ?r] =>
      let E := fresh "Hrendered" in
      destruct (outcome h r) as [[[[? ?] ?] ?]|?] eqn:E; cbn [outcome]
  end.

Ltac simplify_run :=
  try match goal with
      | H : _ /\ _ /\ _ /\ _ /\ _ |- _ =>
          let H1 := fresh in let H2 := fresh in let H3 := fresh in
          let H4 := fresh in let H5 := fresh in
          destruct H as (H1 & H2 & H3 & H4 & H5);
          observe; rewrite ?H1, ?H2, ?H3, ?H4, ?H5 in *
      end;
  observe;
  try match goal with
      | H : omap rendering _ = _ |- _ => rewrite ?H in *
      end;
  rewrite ?first_table_total in *.

Lemma stand_in_keeps_contract w :
  fact_limiter_contract note_wording (stand_in w).
Proof. intros kp df n r H. cbn in H. by injection H as <-. Qed.

(** C1, as the code has it: the row limit of the facts is the constant 5 of
    line 122, not [limit_n].  Whatever the parameters, the fact limiter is
    asked for 5 rows and, if it keeps its contract, the prompts are rendered
    from at most 5 fact rows.  When the engine returns a single table of 5
    rows, the prompts are rendered from all 5 rows, no limitation note is
    emitted, and a run that returns yields one visualization, titled by the
    table's name, and an export of that same table. *)
Theorem facts_bounded_by_top_n wording h p :
  fact_limiter_contract wording h ->
  (forall df n,
     (df, n) ∈ limiter_requests (trace h (kpi_performance p)) -> n = 5) /\
  (forall facts,
     facts ∈ prompt_facts (trace h (kpi_performance p)) ->
     fact_rows facts <= 5) /\
  (forall tables footnotes name table,
     (tables, footnotes)
       ∈ display_tables_replies (trace h (kpi_performance p)) ->
     tables = [(name, table)] ->
     length (df_rows table) = 5 ->
     (forall facts,
        facts ∈ prompt_facts (trace h (kpi_performance p)) ->
        facts !! 1%nat = Some (to_dict_records table)) /\
     (forall r, r ∈ limiter_replies (trace h (kpi_performance p)) ->
        r.2 = None) /\
     (forall out,
        outcome h (kpi_performance p) = Ok out ->
        map SkillVisualization.title (SkillOutput.visualizations out) = [name]
        /\ SkillOutput.export_data out = [ExportData.mk name table])).
Proof.
  intros Hcontract. split; [|split].
  - analysis h; intros df n Hn; simplify_run; members; by simplify_eq.
  - analysis h; intros facts Hfacts; simplify_run; members.
    apply Hcontract, limit_facts_spec_rows in E5.
    assert (fact_rows facts = length (df_rows d0)) as ->.
    { destruct (h (Template_render _ _)); cbn in Hfacts; members; subst;
        unfold fact_rows; cbn; apply to_dict_records_length. }
    apply E5.
  - intros tables footnotes name table Htables -> Hrows.
    assert (length (df_rows table) <= top_n) as Hfits
      by (unfold top_n; lia).
    repeat split.
    + revert Htables. analysis h; intros Htables facts Hfacts;
        simplify_run; members; simplify_eq.
      apply Hcontract, limit_facts_spec_fits in E5 as [E5 _]; [|done].
      destruct (h (Template_render _ _)); cbn in Hfacts; members; subst; cbn;
        by rewrite E5.
    + revert Htables. analysis h; intros Htables r Hr;
        simplify_run; members; simplify_eq;
        by apply Hcontract, limit_facts_spec_fits in E5 as [_ E5].
    + revert H Htables. analysis h; intros Hout Htables; try done.
      revert Hout. rendered h; [|done]. intros [= <-]. cbn.
      simplify_run; members; simplify_eq.
      by apply render_layout_outcome in Hrendered as (_ & -> & _).
    + revert H Htables. analysis h; intros Hout Htables; try done.
      revert Hout. rendered h; [|done]. intros [= <-]. cbn.
      simplify_run; members; simplify_eq.
      by apply render_layout_outcome in Hrendered as (_ & _ & ->).
Qed.

Lemma warning_shown_general title subtitle insights warning_message note :
  warning_shown warning_message note
    (general_vars title subtitle (add_limitation_note warning_message note)
       insights).
Proof.
  destruct (general_vars_lookup title subtitle
              (add_limitation_note warning_message note) insights)
    as (_ & _ & Hflag & _ & Hwarning).
  unfold warning_shown. rewrite Hflag, Hwarning.
  destruct warning_message as [[|c w]|], note as [[|c' n]|];
    cbn; repeat split; try done;
    try (by intros [?|?]); by intros ? ? [= <-] [= <-].
Qed.

(** C3: the warning-hidden flag is true exactly when the engine's warning
    message is empty and the fact limiter emits no note; when both are
    present the warning text is the message, a space, the note.  This holds
    of the general variables of lines 170-176 and, for each visualization, of
    the variables handed to the layout engine, which take a general variable
    unless the table's own variables define the same name. *)
Theorem warning_flag_and_text h p :
  (forall title subtitle insights warning_message note,
     warning_shown warning_message note
       (general_vars title subtitle
          (add_limitation_note warning_message note) insights)) /\
  forall followups kp r i v,
    (followups, kp) ∈ suggestions_replies (trace h (kpi_performance p)) ->
    r ∈ limiter_replies (trace h (kpi_performance p)) ->
    layout_vars (trace h (kpi_performance p)) !! i = Some v ->
    exists d,
      table_vars_replies (trace h (kpi_performance p)) !! i = Some d /\
      (d !! "hide_growth_warning" = None -> d !! "warning" = None ->
       warning_shown (KPIPerformance.warning_message kp) r.2 v).
Proof.
  split; [intros; apply warning_shown_general|].
  analysis h; intros followups kp r i v Hkp Hr Hv;
    simplify_run; members; simplify_eq.
  apply Hvars in Hv as (name & table & tv & ins & _ & Htv & _ & ->).
  exists tv. split; [done|]. intros Hflag Hwarning.
  match goal with
  | |- warning_shown ?w ?n (_ ∪ general_vars ?t ?s _ ?i) =>
      pose proof (warning_shown_general t s i w n) as Hshown
  end.
  unfold warning_shown in *.
  by rewrite !merged_general.
Qed.

(** C5, as the code has it: the table the facts are drawn from is always
    defined.  It is the first display table when there is one and otherwise
    the primary result table [df]; that is the table handed to the fact
    limiter. *)
Theorem facts_table_is_first_or_result h p :
  (forall tables df,
     first_table tables df
     = Ok (match tables with [] => df | (_, table) :: _ => table end)) /\
  forall df tables footnotes ft n,
    df ∈ run_replies (trace h (kpi_performance p)) ->
    (tables, footnotes)
      ∈ display_tables_replies (trace h (kpi_performance p)) ->
    (ft, n) ∈ limiter_requests (trace h (kpi_performance p)) ->
    ft = match tables with [] => df | (_, table) :: _ => table end.
Proof.
  split; [apply first_table_total|].
  analysis h; intros df tables footnotes ft n Hdf Htables Hft;
    simplify_run; members; by simplify_eq.
Qed.

(** C8: the follow-up questions of the output are the suggestions of the
    engine whose ["label"] is present and truthy, in their order; a
    suggestion without such a label is left out. *)
Theorem followups_kept_iff_label_truthy h p out followups kp :
  outcome h (kpi_performance p) = Ok out ->
  (followups, kp) ∈ suggestions_replies (trace h (kpi_performance p)) ->
  SkillOutput.followup_questions out
  = map (fun f => SuggestedQuestion.mk (dict_get f "label")
                    (dict_get f "question"))
      (filter (fun f => truthy (dict_get f "label")) followups) /\
  forall f, f ∈ followups ->
    (SuggestedQuestion.mk (dict_get f "label") (dict_get f "question")
       ∈ SkillOutput.followup_questions out
     <-> exists l, f !! "label" = Some l /\ truthy l = true).
Proof.
  revert out followups kp. analysis h; intros out followups kp; try done.
  rendered h; [|done]. intros [= <-] Hkp.
  simplify_run; members; simplify_eq.
  split; [done|]. apply followup_questions_spec.
Qed.

(** C7: an exception raised by a collaborator, whichever it is, is the
    outcome of [kpi_performance] and of [render_layout], unchanged. *)
Theorem collaborator_errors_propagate h ev e :
  raised ev = Some e ->
  (forall p,
     ev ∈ trace h (kpi_performance p) ->
     outcome h (kpi_performance p) = Err e) /\
  (forall tables title subtitle dim_col_label insights_dfs warnings footnotes
          max_prompt insight_prompt viz_layout,
     ev ∈ trace h (render_layout tables title subtitle dim_col_label
                     insights_dfs warnings footnotes max_prompt
                     insight_prompt viz_layout) ->
     outcome h (render_layout tables title subtitle dim_col_label
                  insights_dfs warnings footnotes max_prompt insight_prompt
                  viz_layout) = Err e).
Proof.
  intros He. split; intros; by eapply raised_is_outcome.
Qed.

Section RenderLayoutProperties.
Context (h : handler).
Context (tables : list (string * DataFrame)) (title subtitle : option string)
  (dim_col_label : string) (insights_dfs : list DataFrame)
  (warnings : option string) (footnotes : gmap string string)
  (max_prompt insight_prompt : string) (viz_layout : pyval).

Let run := render_layout tables title subtitle dim_col_label insights_dfs
             warnings footnotes max_prompt insight_prompt viz_layout.

(** C2, where the code departs from it: with two or more tables and a layout
    that decodes to a JSON document, [render_layout] does not return.  Line
    193 overwrites [viz_layout] with the decoded document, so the second
    iteration hands [json.loads] a value that is not a [str]: unless a
    collaborator raised before, the outcome is that [TypeError]. *)
Theorem render_layout_raises_on_second_table s doc :
  2 <= length tables ->
  viz_layout = PStr s ->
  h (json_decode s) = Ok doc ->
  (forall s', doc <> PStr s') ->
  exists e,
    outcome h run = Err e /\
    (errors (trace h run) = [] ->
     e = TypeError ("the JSON object must be str, bytes or bytearray, not "
                    +:+ type_name doc)).
Proof.
  intros Hlen. destruct tables as [|[name table] [|item items]] eqn:Htables;
    cbn in Hlen; try lia.
  intros. subst run. by eapply render_layout_second_table.
Qed.

(** C4: when the LLM client returns the empty string, the general variables
    carry the fallback narrative, and so do the variables of each
    visualization unless the table's own variables define
    ["exec_summary"]. *)
Theorem empty_completion_shows_fallback i v :
  Some "" ∈ llm_replies (trace h run) ->
  layout_vars (trace h run) !! i = Some v ->
  exists name table d,
    tables !! i = Some (name, table) /\
    table_vars_replies (trace h run) !! i = Some d /\
    v = set_footer (dim_note footnotes name) d
        ∪ general_vars title subtitle warnings (Some "") /\
    general_vars title subtitle warnings (Some "") !! "exec_summary"
    = Some (PStr "No Insight.") /\
    (d !! "exec_summary" = None ->
     v !! "exec_summary" = Some (PStr "No Insight.")).
Proof.
  intros Hllm Hv.
  apply render_layout_layout_vars in Hv
    as (name & table & d & ins & Htable & Hd & Hins & ->).
  fold run in Hins. rewrite Hins in Hllm. members. subst ins.
  exists name, table, d.
  split; [done|]. split; [done|]. split; [done|]. split; [done|].
  intros Hnone. by rewrite merged_general.
Qed.

Lemma headlines_shown_general insights :
  headlines_shown title subtitle
    (general_vars title subtitle warnings insights).
Proof.
  destruct (general_vars_lookup title subtitle warnings insights)
    as (Hh & Hs & _).
  unfold headlines_shown. rewrite Hh, Hs.
  repeat split.
  - by intros ->.
  - by intros ->.
  - by intros s -> ->.
  - by intros s -> ->.
Qed.

(** C9: an empty title is shown as "Total" and an empty subtitle as "Trend
    Analysis"; a title and a subtitle that are not empty are shown as given.
    This holds of the general variables and, for each visualization, of the
    variables handed to the layout engine unless the table's own variables
    define ["headline"] or ["sub_headline"]. *)
Theorem headline_defaults i v :
  layout_vars (trace h run) !! i = Some v ->
  exists name table d insights,
    tables !! i = Some (name, table) /\
    table_vars_replies (trace h run) !! i = Some d /\
    v = set_footer (dim_note footnotes name) d
        ∪ general_vars title subtitle warnings insights /\
    headlines_shown title subtitle
      (general_vars title subtitle warnings insights) /\
    (d !! "headline" = None -> d !! "sub_headline" = None ->
     headlines_shown title subtitle v).
Proof.
  intros Hv.
  apply render_layout_layout_vars in Hv
    as (name & table & d & ins & Htable & Hd & Hins & ->).
  exists name, table, d, ins.
  split; [done|]. split; [done|]. split; [done|].
  split; [apply headlines_shown_general|].
  intros Hh Hs. pose proof (headlines_shown_general ins) as Hshown.
  unfold headlines_shown in *. by rewrite !merged_general.
Qed.

(** C10: for the [i]-th table, the variables handed to the layout engine
    hide the footer and show "No additional info." when the footnotes have
    no entry, or an empty one, for the table's name; otherwise they show the
    footnote, stripped. *)
Theorem footer_of_each_table i name table v :
  tables !! i = Some (name, table) ->
  layout_vars (trace h run) !! i = Some v ->
  footer_shown (footnotes !! name) v.
Proof.
  intros Htable Hv.
  apply render_layout_layout_vars in Hv
    as (name' & table' & d & ins & Htable' & _ & _ & ->).
  rewrite Htable in Htable'. injection Htable' as <- <-.
  destruct (merged_footer (dim_note footnotes name) d
              (general_vars title subtitle warnings ins)) as [Hh Hf].
  unfold footer_shown. rewrite Hh, Hf. unfold dim_note.
  destruct (footnotes !! name) as [[|c s]|] eqn:Hnote.
  - rewrite decide_True by eauto. split; [done|]. by intros s [= <-].
  - rewrite decide_True by eauto. split; [by intros [?|?]|].
    by intros s' [= <-].
  - rewrite decide_False by (by intros [? ?]). split; [done|]. done.
Qed.

End RenderLayoutProperties.

(** C6: two calls of [render_layout] with the same [insights_dfs] and the
    same two templates render the same prompts, whatever else they are given
    and whatever the other collaborators answer: the renderer receives the
    same templates and facts and, being the same renderer, returns the same
    strings, which are the prompt sent to the LLM client and the prompt
    returned. *)
Theorem prompt_rendering_is_deterministic (h1 h2 : handler)
    insights_dfs max_prompt insight_prompt
    tables1 title1 subtitle1 dim_col_label1 warnings1 footnotes1 viz_layout1
    tables2 title2 subtitle2 dim_col_label2 warnings2 footnotes2 viz_layout2 :
  (forall template facts,
     h1 (Template_render template facts)
     = h2 (Template_render template facts)) ->
  let run1 := render_layout tables1 title1 subtitle1 dim_col_label1
                insights_dfs warnings1 footnotes1 max_prompt insight_prompt
                viz_layout1 in
  let run2 := render_layout tables2 title2 subtitle2 dim_col_label2
                insights_dfs warnings2 footnotes2 max_prompt insight_prompt
                viz_layout2 in
  renderings (trace h1 run1) = renderings (trace h2 run2) /\
  (forall insight_template1 insight_template2,
     insight_template1 ∈ llm_prompts (trace h1 run1) ->
     insight_template2 ∈ llm_prompts (trace h2 run2) ->
     insight_template1 = insight_template2) /\
  (forall r1 r2,
     outcome h1 run1 = Ok r1 -> outcome h2 run2 = Ok r2 ->
     r1.1.2 = r2.1.2).
Proof.
  intros Hsame run1 run2. subst run1 run2. repeat split.
  - rewrite !render_layout_renderings. by rewrite !Hsame.
  - intros p1 p2 H1%render_layout_llm_prompts H2%render_layout_llm_prompts.
    rewrite Hsame, H2 in H1. by injection H1.
  - intros [[[viz1 ins1] fp1] exp1] [[[viz2 ins2] fp2] exp2]
      (H1 & _)%render_layout_outcome (H2 & _)%render_layout_outcome.
    rewrite Hsame, H2 in H1. by injection H1.
Qed.

(** ** The scenarios *)

(** C1, refuted as stated: with [limit_n = 2] and an engine that returns one
    table of five rows, the prompts are rendered from five fact rows. *)
Lemma facts_exceed_limit_n :
  ~ fact_rows_bounded_by_limit_n (stand_in spend_world) spend_parameters.
Proof.
  intros Hbound.
  specialize (Hbound [to_dict_records no_notes;
                      to_dict_records spend_by_region]).
  assert (Z.of_nat 5 <= 2)%Z as Habsurd; [|lia].
  apply Hbound. apply list_elem_of_here.
Qed.

(** C1 on the spend scenario: [limit_n = 2], one table of five rows. *)
Lemma facts_bounded_by_top_n_witness :
  let t := trace (stand_in spend_world) (kpi_performance spend_parameters) in
  fact_limiter_contract note_wording (stand_in spend_world) /\
  limit_n (arguments spend_parameters) = 2%Z /\
  ([("Spend by Region", spend_by_region)], ∅) ∈ display_tables_replies t /\
  length (df_rows spend_by_region) = 5 /\
  (forall facts, facts ∈ prompt_facts t ->
     fact_rows facts <= 5 /\
     facts !! 1%nat = Some (to_dict_records spend_by_region)) /\
  (forall r, r ∈ limiter_replies t -> r.2 = None) /\
  (forall out,
     outcome (stand_in spend_world) (kpi_performance spend_parameters)
     = Ok out ->
     map SkillVisualization.title (SkillOutput.visualizations out)
     = ["Spend by Region"] /\
     SkillOutput.export_data out
     = [ExportData.mk "Spend by Region" spend_by_region]).
Proof.
  intros t.
  assert (fact_limiter_contract note_wording (stand_in spend_world))
    as Hcontract by apply stand_in_keeps_contract.
  assert (([("Spend by Region", spend_by_region)], ∅)
            ∈ display_tables_replies t) as Htables
    by apply list_elem_of_here.
  destruct (facts_bounded_by_top_n note_wording (stand_in spend_world)
              spend_parameters Hcontract) as (_ & Hbound & Hscenario).
  destruct (Hscenario _ _ _ _ Htables eq_refl eq_refl)
    as (Hfacts & Hnote & Hout).
  split; [exact Hcontract|]. split; [reflexivity|].
  split; [exact Htables|]. split; [reflexivity|].
  split; [|split; [exact Hnote|exact Hout]].
  intros facts Hf. split; [exact (Hbound facts Hf)|exact (Hfacts facts Hf)].
Defined.

(** C2 on two tables and the layout [{}]: the second iteration raises. *)
Lemma render_layout_raises_on_second_table_witness :
  let run := render_layout (display_tables two_tables_world) (Some "Spend")
               None "Region" [no_notes; spend_by_region] None ∅
               "Answer briefly." "Write insights." (PStr "{}") in
  2 <= length (display_tables two_tables_world) /\
  stand_in two_tables_world (json_decode "{}") = Ok (PDict []) /\
  errors (trace (stand_in two_tables_world) run) = [] /\
  outcome (stand_in two_tables_world) run
  = Err (TypeError
           "the JSON object must be str, bytes or bytearray, not dict").
Proof.
  intros run.
  assert (2 <= length (display_tables two_tables_world)) as Hlen
    by (cbn; lia).
  assert (stand_in two_tables_world (json_decode "{}") = Ok (PDict []))
    as Hdoc by reflexivity.
  assert (errors (trace (stand_in two_tables_world) run) = []) as Hquiet
    by reflexivity.
  destruct (render_layout_raises_on_second_table (stand_in two_tables_world)
              (display_tables two_tables_world) (Some "Spend") None "Region"
              [no_notes; spend_by_region] None ∅ "Answer briefly."
              "Write insights." (PStr "{}") "{}" (PDict []) Hlen eq_refl Hdoc
              ltac:(discriminate)) as (e & Hout & He).
  split; [exact Hlen|]. split; [exact Hdoc|]. split; [exact Hquiet|].
  fold run in Hout, He. rewrite Hout. f_equal. exact (He Hquiet).
Defined.

(** C3 on the channel scenario: the engine warns and two rows are omitted. *)
Lemma warning_flag_and_text_witness :
  let t := trace (stand_in channel_world) (kpi_performance spend_parameters) in
  ([], channel_engine) ∈ suggestions_replies t /\
  limit_facts_spec note_wording spend_by_channel 5 ∈ limiter_replies t /\
  layout_vars t !! 0%nat = Some channel_vars /\
  channel_vars !! "hide_growth_warning" = Some (PBool false) /\
  channel_vars !! "warning"
  = Some (PStr "No prior period. Showing top rows only: 2 rows omitted.").
Proof.
  intros t.
  assert (([], channel_engine) ∈ suggestions_replies t) as Hkp
    by apply list_elem_of_here.
  assert (limit_facts_spec note_wording spend_by_channel 5
            ∈ limiter_replies t) as Hr
    by apply list_elem_of_here.
  assert (layout_vars t !! 0%nat = Some channel_vars) as Hv
    by reflexivity.
  destruct (proj2 (warning_flag_and_text (stand_in channel_world)
                     spend_parameters) _ _ _ _ _ Hkp Hr Hv)
    as (d & Hd & Hshown).
  assert (d = channel_table_vars) as ->
    by (apply (inj Some); rewrite <- Hd; reflexivity).
  destruct (Hshown eq_refl eq_refl) as (_ & Hflag & Htext).
  split; [exact Hkp|]. split; [exact Hr|]. split; [exact Hv|]. split.
  - apply Hflag. by left.
  - by apply (Htext "No prior period."
                "Showing top rows only: 2 rows omitted.").
Defined.

(** C4 on the channel scenario, whose LLM returns the empty string. *)
Lemma empty_completion_shows_fallback_witness :
  let t := trace (stand_in channel_world)
             (render_layout (display_tables channel_world) None (Some "")
                "Channel" [no_notes; spend_by_channel] None channel_footnotes
                "Answer briefly." "Write insights." (PStr "{}")) in
  Some "" ∈ llm_replies t /\
  exists v, layout_vars t !! 0%nat = Some v /\
            v !! "exec_summary" = Some (PStr "No Insight.").
Proof.
  intros t.
  assert (Some "" ∈ llm_replies t) as Hllm
    by apply list_elem_of_here.
  split; [exact Hllm|].
  eexists. split; [reflexivity|].
  destruct (empty_completion_shows_fallback (stand_in channel_world)
              (display_tables channel_world) None (Some "") "Channel"
              [no_notes; spend_by_channel] None channel_footnotes
              "Answer briefly." "Write insights." (PStr "{}") 0%nat _ Hllm
              ltac:(reflexivity))
    as (name & table & d & _ & Hd & _ & _ & Hshown).
  assert (d = channel_table_vars) as ->
    by (apply (inj Some); rewrite <- Hd; reflexivity).
  exact (Hshown eq_refl).
Defined.

(** C5, refuted as stated: without any display table the selection is
    defined, and yields the primary result table. *)
Lemma first_table_defined_without_tables : ~ first_table_needs_tables.
Proof.
  intros Hneeds.
  by apply (Hneeds [] spend_by_region spend_by_region eq_refl).
Qed.

Lemma facts_table_is_first_or_result_witness :
  let t := trace (stand_in no_tables_world)
             (kpi_performance spend_parameters) in
  spend_by_region ∈ run_replies t /\
  ([], ∅) ∈ display_tables_replies t /\
  forall ft n, (ft, n) ∈ limiter_requests t -> ft = spend_by_region.
Proof.
  intros t.
  assert (spend_by_region ∈ run_replies t) as Hdf
    by apply list_elem_of_here.
  assert (([], ∅) ∈ display_tables_replies t) as Htables
    by apply list_elem_of_here.
  split; [exact Hdf|]. split; [exact Htables|].
  intros ft n Hft.
  exact (proj2 (facts_table_is_first_or_result (stand_in no_tables_world)
                  spend_parameters) _ _ _ _ _ Hdf Htables Hft).
Defined.

(** C6 on two worlds that share the renderer and differ in their tables and
    in their LLM. *)
Lemma prompt_rendering_is_deterministic_witness :
  (forall template facts,
     stand_in spend_world (Template_render template facts)
     = stand_in channel_world (Template_render template facts)) /\
  renderings
    (trace (stand_in spend_world)
       (render_layout (display_tables spend_world) (Some "Spend") None
          "Region" [no_notes; spend_by_region] None ∅ "Answer briefly."
          "Write insights." (PStr "{}")))
  = renderings
      (trace (stand_in channel_world)
         (render_layout (display_tables channel_world) None (Some "")
            "Channel" [no_notes; spend_by_region] (Some "No prior period.")
            channel_footnotes "Answer briefly." "Write insights."
            (PStr "[]"))).
Proof.
  assert (forall template facts,
            stand_in spend_world (Template_render template facts)
            = stand_in channel_world (Template_render template facts))
    as Hsame by reflexivity.
  split; [exact Hsame|].
  exact (proj1 (prompt_rendering_is_deterministic (stand_in spend_world)
                  (stand_in channel_world) [no_notes; spend_by_region]
                  "Answer briefly." "Write insights."
                  (display_tables spend_world) (Some "Spend") None "Region"
                  None ∅ (PStr "{}")
                  (display_tables channel_world) None (Some "") "Channel"
                  (Some "No prior period.") channel_footnotes (PStr "[]")
                  Hsame)).
Defined.

(** C7 on an LLM client that times out. *)
Lemma collaborator_errors_propagate_witness :
  let ev := Event (get_llm_response "Write insights. <- facts: 0 5")
              (Err llm_timeout) in
  raised ev = Some llm_timeout /\
  ev ∈ trace llm_down (kpi_performance spend_parameters) /\
  outcome llm_down (kpi_performance spend_parameters) = Err llm_timeout.
Proof.
  intros ev.
  assert (raised ev = Some llm_timeout) as Hraised by reflexivity.
  assert (ev ∈ trace llm_down (kpi_performance spend_parameters)) as Hev
    by (repeat first [apply list_elem_of_here | apply list_elem_of_further]).
  split; [exact Hraised|]. split; [exact Hev|].
  exact (proj1 (collaborator_errors_propagate llm_down ev llm_timeout
                  Hraised) spend_parameters Hev).
Defined.

(** C8 on the suggestions of the spend scenario: of the four, the two with a
    non-empty label are kept. *)
Lemma followups_kept_iff_label_truthy_witness :
  exists out,
    outcome (stand_in spend_world) (kpi_performance spend_parameters)
    = Ok out /\
    (spend_suggestions, spend_engine)
      ∈ suggestions_replies
          (trace (stand_in spend_world) (kpi_performance spend_parameters)) /\
    SkillOutput.followup_questions out
    = [SuggestedQuestion.mk (PStr "Trend") (PStr "How did Spend trend?");
       SuggestedQuestion.mk (PStr "Drivers") PNone].
Proof.
  eexists.
  assert (outcome (stand_in spend_world) (kpi_performance spend_parameters)
          = Ok _) as Hout by reflexivity.
  assert ((spend_suggestions, spend_engine)
            ∈ suggestions_replies
                (trace (stand_in spend_world)
                   (kpi_performance spend_parameters))) as Hkp
    by apply list_elem_of_here.
  split; [exact Hout|]. split; [exact Hkp|].
  rewrite (proj1 (followups_kept_iff_label_truthy (stand_in spend_world)
                    spend_parameters _ _ _ Hout Hkp)).
  reflexivity.
Defined.

(** C9 on the channel scenario: no title and an empty subtitle. *)
Lemma headline_defaults_witness :
  let t := trace (stand_in channel_world)
             (render_layout (display_tables channel_world) None (Some "")
                "Channel" [no_notes; spend_by_channel] None channel_footnotes
                "Answer briefly." "Write insights." (PStr "{}")) in
  exists v, layout_vars t !! 0%nat = Some v /\
            v !! "headline" = Some (PStr "Total") /\
            v !! "sub_headline" = Some (PStr "Trend Analysis").
Proof.
  intros t. eexists. split; [reflexivity|].
  destruct (headline_defaults (stand_in channel_world)
              (display_tables channel_world) None (Some "") "Channel"
              [no_notes; spend_by_channel] None channel_footnotes
              "Answer briefly." "Write insights." (PStr "{}") 0%nat _
              ltac:(reflexivity))
    as (name & table & d & ins & _ & Hd & _ & _ & Hshown).
  assert (d = channel_table_vars) as ->
    by (apply (inj Some); rewrite <- Hd; reflexivity).
  destruct (Hshown eq_refl eq_refl) as (Hh & Hs & _).
  split; [exact (Hh eq_refl)|exact (Hs eq_refl)].
Defined.

(** C10 on the channel scenario: the footnote is shown, stripped. *)
Lemma footer_of_each_table_witness :
  let t := trace (stand_in channel_world)
             (render_layout (display_tables channel_world) None (Some "")
                "Channel" [no_notes; spend_by_channel] None channel_footnotes
                "Answer briefly." "Write insights." (PStr "{}")) in
  display_tables channel_world !! 0%nat
  = Some ("Spend by Channel", spend_by_channel) /\
  exists v, layout_vars t !! 0%nat = Some v /\
            v !! "hide_footer" = Some (PBool false) /\
            v !! "footer" = Some (PStr "Net of rebates.").
Proof.
  intros t. split; [reflexivity|].
  eexists. split; [reflexivity|].
  assert (channel_footnotes !! "Spend by Channel"
          = Some "  Net of rebates. ") as Hnote by reflexivity.
  destruct (footer_of_each_table (stand_in channel_world)
              (display_tables channel_world) None (Some "") "Channel"
              [no_notes; spend_by_channel] None channel_footnotes
              "Answer briefly." "Write insights." (PStr "{}") 0%nat
              "Spend by Channel" spend_by_channel _ eq_refl
              ltac:(reflexivity)) as [_ Hshown].
  exact (Hshown _ Hnote ltac:(discriminate)).
Defined.

(** * Further properties *)

(** ** The loop, call by call *)

Lemma json_replies_cons c r t :
  json_replies (Event c r :: t) =
  match c return result (reply c) -> _ with
  | json_decode _ => fun r =>
      match r with
      | Ok doc => doc :: json_replies t
      | Err _ => json_replies t
      end
  | _ => fun _ => json_replies t
  end r.
Proof.
  unfold json_replies, answer. cbn.
  destruct c; try reflexivity. by destruct r.
Qed.

Lemma layout_requests_cons ev t :
  layout_requests (ev :: t) =
  match ev_call ev with
  | wire_layout viz_layout vars => (viz_layout, vars) :: layout_requests t
  | _ => layout_requests t
  end.
Proof. unfold layout_requests. cbn. by destruct (ev_call ev). Qed.

Lemma layout_replies_cons c r t :
  layout_replies (Event c r :: t) =
  match c return result (reply c) -> _ with
  | wire_layout _ _ => fun r =>
      match r with
      | Ok rendered => rendered :: layout_replies t
      | Err _ => layout_replies t
      end
  | _ => fun _ => layout_replies t
  end r.
Proof.
  unfold layout_replies, answer. cbn.
  destruct c; try reflexivity. by destruct r.
Qed.

(** Every layout handed to the layout engine is a document the decoder
    returned: the [i]-th request carries the [i]-th decoded document. *)
Lemma render_tables_decoded h gv dim fn items :
  forall vl viz exp i layout vars,
    layout_requests (trace h (render_tables items gv dim fn vl viz exp)) !! i
    = Some (layout, vars) ->
    json_replies (trace h (render_tables items gv dim fn vl viz exp)) !! i
    = Some layout.
Proof.
  induction items as [|[name table] items IH]; intros vl viz exp i layout vars.
  - cbn. intros H. inversion H.
  - cbn [render_tables trace bind perform].
    rewrite layout_requests_cons, json_replies_cons. cbn [ev_call].
    destruct (h (get_table_layout_vars_kpi table dim)) as [d|e]; [|by intros H].
    destruct vl; cbn [json_loads bind perform trace]; try by intros H.
    rewrite layout_requests_cons, json_replies_cons. cbn [ev_call].
    destruct (h (json_decode s)) as [doc|e]; [|by intros H].
    cbn [trace]. rewrite layout_requests_cons, json_replies_cons.
    cbn [ev_call].
    destruct i as [|i].
    + by intros [= <- _].
    + cbn [lookup list_lookup].
      destruct (h (wire_layout doc _)) as [r|e]; [|by intros H].
      apply IH.
Qed.

(** The loop asks the layout engine at most once per item. *)
Lemma render_tables_requests_bound h gv dim fn items :
  forall vl viz exp,
    length (layout_requests (trace h (render_tables items gv dim fn vl viz
                                         exp))) <= length items.
Proof.
  induction items as [|[name table] items IH]; intros vl viz exp.
  - cbn. lia.
  - cbn [render_tables trace bind perform].
    rewrite layout_requests_cons. cbn [ev_call length].
    destruct (h (get_table_layout_vars_kpi table dim)) as [d|e]; [|cbn; lia].
    destruct vl; cbn [json_loads bind perform trace]; try (cbn; lia).
    rewrite layout_requests_cons. cbn [ev_call].
    destruct (h (json_decode s)) as [doc|e]; [|cbn; lia].
    cbn [trace]. rewrite layout_requests_cons. cbn [ev_call length].
    destruct (h (wire_layout doc _)) as [r|e]; [|cbn; lia].
    specialize (IH doc (viz ++ [SkillVisualization.mk name r])
                  (dict_set name table exp)). lia.
Qed.

(** When the loop returns, the layouts of the visualizations it appended are
    the replies of the layout engine, in order. *)
Lemma render_tables_layouts h gv dim fn items :
  forall vl viz exp viz' exp',
    outcome h (render_tables items gv dim fn vl viz exp) = Ok (viz', exp') ->
    map SkillVisualization.layout viz'
    = map SkillVisualization.layout viz
      ++ layout_replies (trace h (render_tables items gv dim fn vl viz exp)).
Proof.
  induction items as [|[name table] items IH]; intros vl viz exp viz' exp'.
  - cbn. intros [= <- <-]. by rewrite app_nil_r.
  - cbn [render_tables outcome trace bind perform].
    rewrite layout_replies_cons.
    destruct (h (get_table_layout_vars_kpi table dim)) as [d|e]; [|done].
    destruct vl; cbn [json_loads bind perform outcome trace]; try done.
    rewrite layout_replies_cons.
    destruct (h (json_decode s)) as [doc|e]; [|done].
    cbn [outcome trace]. rewrite layout_replies_cons.
    destruct (h (wire_layout doc _)) as [r|e] eqn:E; [|done].
    intros H. apply IH in H. rewrite H.
    by rewrite map_app, <- app_assoc.
Qed.

(** The layouts form a chain of decodings: the first is the decoding of the
    layout the loop starts with, each further one the decoding of the one
    before. *)
Lemma render_tables_chain h gv dim fn items :
  forall vl viz exp i layout vars,
    layout_requests (trace h (render_tables items gv dim fn vl viz exp)) !! i
    = Some (layout, vars) ->
    exists s,
      match i with
      | O => Some vl
      | S j =>
          fst <$> layout_requests
                    (trace h (render_tables items gv dim fn vl viz exp)) !! j
      end = Some (PStr s) /\
      h (json_decode s) = Ok layout.
Proof.
  induction items as [|[name table] items IH]; intros vl viz exp i layout vars.
  - cbn. intros H. inversion H.
  - cbn [render_tables trace bind perform].
    rewrite layout_requests_cons. cbn [ev_call].
    destruct (h (get_table_layout_vars_kpi table dim)) as [d|e]; [|by intros H].
    destruct vl; cbn [json_loads bind perform trace]; try by intros H.
    rewrite layout_requests_cons. cbn [ev_call].
    destruct (h (json_decode s)) as [doc|e] eqn:Hdoc; [|by intros H].
    cbn [trace]. rewrite layout_requests_cons. cbn [ev_call].
    destruct i as [|i].
    + intros [= <- _]. by exists s.
    + cbn [lookup list_lookup].
      destruct (h (wire_layout doc _)) as [r|e]; [|by intros H].
      intros H. apply IH in H as (s' & Hprev & Hdec).
      exists s'. split; [|done]. by destruct i.
Qed.

Lemma narrative_calls_only t :
  Forall (fun ev => loop_call (ev_call ev) = false) t ->
  layout_requests t = [] /\ layout_replies t = [] /\ json_replies t = [] /\
  table_vars_replies t = [].
Proof.
  intros H. repeat split; apply omap_None_Forall;
    (eapply Forall_impl; [apply H|]);
    intros [c r]; unfold answer; cbn; by destruct c.
Qed.

(** ** [render_layout], run by run *)

Section RenderLayoutRuns.
Context (h : handler).
Context (tables : list (string * DataFrame)) (title subtitle : option string)
  (dim_col_label : string) (insights_dfs : list DataFrame)
  (warnings : option string) (footnotes : gmap string string)
  (max_prompt insight_prompt : string) (viz_layout : pyval).

Let facts := map to_dict_records insights_dfs.
Let run := render_layout tables title subtitle dim_col_label insights_dfs
             warnings footnotes max_prompt insight_prompt viz_layout.

Ltac narrative :=
  unfold run, render_layout; fold facts; cbn [trace outcome bind perform];
  destruct (h (Template_render insight_prompt facts)) as [it|?] eqn:Hit;
  [ destruct (h (Template_render max_prompt facts)) as [mrp|?] eqn:Hmrp;
    [ destruct (h ArUtils) as [[]|?] eqn:Har;
      [ destruct (h (get_llm_response it)) as [ins|?] eqn:Hins | ] | ] | ].

(** The trace is the calls of lines 162-167 followed by those of the loop. *)
Lemma render_layout_trace_split :
  exists t0 t1,
    trace h run = t0 ++ t1 /\
    Forall (fun ev => loop_call (ev_call ev) = false) t0 /\
    length t0 <= 4 /\
    length (llm_prompts t0) <= 1 /\
    ((t1 = [] /\ forall r, outcome h run <> Ok r) \/
     exists it mrp ins,
       h (Template_render insight_prompt facts) = Ok it /\
       h (Template_render max_prompt facts) = Ok mrp /\
       h ArUtils = Ok tt /\
       h (get_llm_response it) = Ok ins /\
       length t0 = 4 /\
       t1 = trace h (render_tables tables
                       (general_vars title subtitle warnings ins)
                       dim_col_label footnotes viz_layout [] []) /\
       outcome h run
       = match outcome h (render_tables tables
                            (general_vars title subtitle warnings ins)
                            dim_col_label footnotes viz_layout [] []) with
         | Ok (viz_list, export_data) => Ok (viz_list, ins, mrp, export_data)
         | Err e => Err e
         end).
Proof.
  narrative.
  - eexists [_; _; _; _], _. split; [reflexivity|].
    split; [by repeat constructor|]. split; [cbn; lia|]. split; [cbn; lia|].
    right. exists it, mrp, ins. repeat split; try done.
    + by apply trace_bind_silent; intros [? ?].
    + rewrite outcome_bind. by destruct (outcome h _) as [[? ?]|?].
  - eexists [_; _; _; _], []. split; [reflexivity|].
    split; [by repeat constructor|]. split; [cbn; lia|]. split; [cbn; lia|].
    by left.
  - eexists [_; _; _], []. split; [reflexivity|].
    split; [by repeat constructor|]. split; [cbn; lia|]. split; [cbn; lia|].
    by left.
  - eexists [_; _], []. split; [reflexivity|].
    split; [by repeat constructor|]. split; [cbn; lia|]. split; [cbn; lia|].
    by left.
  - eexists [_], []. split; [reflexivity|].
    split; [by repeat constructor|]. split; [cbn; lia|]. split; [cbn; lia|].
    by left.
Qed.

(** X1: with no table, [render_layout] makes the two renderings, creates the
    client and asks the LLM, and nothing else: it returns no visualization
    and an empty export, and never looks at [viz_layout]. *)
Theorem render_layout_without_tables it mrp ins :
  tables = [] ->
  h (Template_render insight_prompt facts) = Ok it ->
  h (Template_render max_prompt facts) = Ok mrp ->
  h ArUtils = Ok tt ->
  h (get_llm_response it) = Ok ins ->
  outcome h run = Ok ([], ins, mrp, []) /\
  trace h run
  = [Event (Template_render insight_prompt facts) (Ok it);
     Event (Template_render max_prompt facts) (Ok mrp);
     Event ArUtils (Ok tt);
     Event (get_llm_response it) (Ok ins)].
Proof.
  intros Htables H1 H2 H3 H4. subst run. rewrite Htables.
  unfold render_layout. fold facts.
  cbn [trace outcome bind perform render_tables].
  rewrite H1. cbn [trace outcome]. rewrite H2. cbn [trace outcome].
  rewrite H3. cbn [trace outcome]. rewrite H4. done.
Qed.


(** X3: a layout that is not a [str] makes [render_layout] raise at the first
    table, before anything is decoded or handed to the layout engine; unless
    a collaborator raised before, the exception is the [TypeError] of
    [json.loads]. *)
Theorem render_layout_needs_str_layout :
  tables <> [] ->
  (forall s, viz_layout <> PStr s) ->
  exists e,
    outcome h run = Err e /\
    json_replies (trace h run) = [] /\
    layout_requests (trace h run) = [] /\
    (errors (trace h run) = [] ->
     e = TypeError ("the JSON object must be str, bytes or bytearray, not "
                    +:+ type_name viz_layout)).
Proof.
  intros Htables Hlayout.
  destruct tables as [|[name table] items] eqn:E; [done|].
  narrative;
    try (eexists; split; [done|]; split; [done|]; split; [done|];
         by unfold errors).
  rewrite outcome_bind, trace_bind_silent by (by intros [? ?]).
  cbn [render_tables outcome trace bind perform].
  destruct (h (get_table_layout_vars_kpi table dim_col_label)) as [d|e'].
  - destruct viz_layout; try (by destruct (Hlayout s));
      cbn [json_loads bind outcome trace];
      (eexists; split; [done|]; split; [done|]; split; [done|]; done).
  - eexists; split; [done|]; split; [done|]; split; [done|].
    by unfold errors.
Qed.

(** X4: when [render_layout] returns, on tables with distinct names, there is
    one visualization per table, in the order of the tables: its title is
    the table's name and its layout the reply of the layout engine.  The
    export is the mapping of tables itself, the completion is the LLM's reply
    and the prompt returned is the rendered max prompt. *)
Theorem render_layout_returns_one_per_table viz insights final_prompt
    export_data :
  NoDup (map fst tables) ->
  outcome h run = Ok (viz, insights, final_prompt, export_data) ->
  map SkillVisualization.title viz = map fst tables /\
  map SkillVisualization.layout viz = layout_replies (trace h run) /\
  export_data = tables /\
  llm_replies (trace h run) = [insights] /\
  h (Template_render max_prompt facts) = Ok final_prompt.
Proof.
  intros Hnames Hout.
  destruct render_layout_trace_split
    as (t0 & t1 & Ht & Ht0 & _ & _ & [[_ Hnot]|Hrun]); [by destruct (Hnot _ Hout)|].
  destruct Hrun as (it & mrp & ins & H1 & H2 & H3 & H4 & Hlen & -> & Hrun).
  rewrite Hrun in Hout.
  destruct (outcome h (render_tables _ _ _ _ _ _ _)) as [[viz' exp']|e] eqn:E;
    [|done].
  injection Hout as -> -> -> ->.
  pose proof (render_tables_layouts _ _ _ _ _ _ _ _ _ _ E) as Hlayouts.
  apply render_tables_outcome in E as (new & -> & Htitles & ->).
  split; [done|]. split; [|split; [by apply (exported_NoDup tables [])|]].
  - rewrite Ht. unfold layout_replies. rewrite omap_app.
    destruct (narrative_calls_only _ Ht0) as (_ & Hr & _).
    unfold layout_replies in Hr. by rewrite Hr.
  - split; [|done]. rewrite Ht. unfold llm_replies. rewrite omap_app.
    destruct (loop_no_prompts _ (render_tables_calls h
      (general_vars title subtitle warnings insights) dim_col_label footnotes
      tables viz_layout [] [])) as (_ & _ & Hl).
    unfold llm_replies in Hl. rewrite Hl, app_nil_r.
    revert Ht H1 H2 H3 H4. unfold run, render_layout. fold facts.
    cbn [trace bind perform]. intros Ht H1 H2 H3 H4.
    rewrite H1, H2, H3, H4 in Ht.
    apply (f_equal (take 4)) in Ht. rewrite take_app_length' in Ht by done.
    cbn in Ht. rewrite <- Ht. unfold answer. cbn. done.
Qed.

(** X5: when the max prompt cannot be rendered, the LLM is never asked, even
    though its own prompt was rendered, and no visualization is made: the
    renderer's exception is the outcome. *)
Theorem broken_max_prompt_blocks_llm it e :
  h (Template_render insight_prompt facts) = Ok it ->
  h (Template_render max_prompt facts) = Err e ->
  outcome h run = Err e /\
  llm_prompts (trace h run) = [] /\
  layout_requests (trace h run) = [].
Proof.
  intros H1 H2. subst run. unfold render_layout. fold facts.
  cbn [trace outcome bind perform].
  rewrite H1. cbn [trace outcome]. rewrite H2. done.
Qed.

(** X6: one call of [render_layout] renders at most two prompts, asks the LLM
    at most once and the layout engine at most once per table; any two of its
    visualizations show the same value for a general variable that their
    tables' own variables leave undefined. *)
Theorem one_completion_per_call :
  length (renderings (trace h run)) <= 2 /\
  length (llm_prompts (trace h run)) <= 1 /\
  length (layout_requests (trace h run)) <= length tables /\
  forall i j vi vj di dj k,
    layout_vars (trace h run) !! i = Some vi ->
    layout_vars (trace h run) !! j = Some vj ->
    table_vars_replies (trace h run) !! i = Some di ->
    table_vars_replies (trace h run) !! j = Some dj ->
    k ∈ general_keys ->
    di !! k = None -> dj !! k = None ->
    vi !! k = vj !! k.
Proof.
  split; [|split; [|split]].
  - subst run. rewrite render_layout_renderings.
    destruct (h (Template_render insight_prompt _)); cbn; lia.
  - destruct render_layout_trace_split
      as (t0 & t1 & -> & _ & _ & Hllm & [[-> _]|Hrun]).
    + by rewrite app_nil_r.
    + destruct Hrun as (it & mrp & ins & _ & _ & _ & _ & _ & -> & _).
      unfold llm_prompts in *. rewrite omap_app.
      destruct (loop_no_prompts _ (render_tables_calls h
        (general_vars title subtitle warnings ins) dim_col_label footnotes
        tables viz_layout [] [])) as (_ & Hp & _).
      unfold llm_prompts in Hp. by rewrite Hp, app_nil_r.
  - destruct render_layout_trace_split
      as (t0 & t1 & -> & Ht0 & _ & _ & [[-> _]|Hrun]);
      destruct (narrative_calls_only _ Ht0) as (Hr & _);
      unfold layout_requests in *; rewrite omap_app, Hr.
    + cbn. lia.
    + destruct Hrun as (it & mrp & ins & _ & _ & _ & _ & _ & -> & _).
      apply render_tables_requests_bound.
  - intros i j vi vj di dj k Hvi Hvj Hdi Hdj Hk Hnonei Hnonej.
    apply render_layout_layout_vars in Hvi
      as (ni & ti & di' & insi & _ & Hdi' & Hinsi & ->).
    apply render_layout_layout_vars in Hvj
      as (nj & tj & dj' & insj & _ & Hdj' & Hinsj & ->).
    fold run in Hdi', Hdj', Hinsi, Hinsj.
    rewrite Hdi in Hdi'. rewrite Hdj in Hdj'.
    injection Hdi' as <-. injection Hdj' as <-.
    rewrite Hinsi in Hinsj. injection Hinsj as <-.
    assert (k <> "footer" /\ k <> "hide_footer") as [Hf Hh].
    { unfold general_keys in Hk. members; by subst. }
    by rewrite !merged_general.
Qed.

(** X7: the variables handed to the layout engine always define the five
    general names and the two footer names; and whatever the table's own
    variables define, the footer names apart, is handed over unchanged, a
    general variable of the same name giving way. *)
Theorem layout_variables_are_bound i v :
  layout_vars (trace h run) !! i = Some v ->
  (forall k, k ∈ general_keys ++ footer_keys -> is_Some (v !! k)) /\
  exists d,
    table_vars_replies (trace h run) !! i = Some d /\
    forall k x, k ∉ footer_keys -> d !! k = Some x -> v !! k = Some x.
Proof.
  intros Hv.
  apply render_layout_layout_vars in Hv
    as (name & table & d & ins & _ & Hd & _ & ->).
  fold run in Hd. split.
  - intros k Hk.
    destruct (merged_footer (dim_note footnotes name) d
                (general_vars title subtitle warnings ins)) as [Hh Hf].
    destruct (general_vars_lookup title subtitle warnings ins)
      as (G1 & G2 & G3 & G4 & G5).
    assert (forall k', is_Some (general_vars title subtitle warnings ins !! k')
                       -> is_Some ((set_footer (dim_note footnotes name) d
                                    ∪ general_vars title subtitle warnings ins)
                                   !! k')) as Hgen.
    { intros k' [x Hx]. apply lookup_union_is_Some. right. by exists x. }
    unfold general_keys, footer_keys in Hk. cbn in Hk. members; subst;
      try (apply Hgen; eauto; fail); eauto.
  - exists d. split; [done|]. intros k x Hk Hx.
    apply lookup_union_Some_l. unfold set_footer.
    rewrite !lookup_insert_ne; [done| |];
      intros <-; apply Hk; unfold footer_keys;
      repeat first [apply list_elem_of_here | apply list_elem_of_further].
Qed.

(** X8: a completion that is not empty is shown as it is, and a missing one
    ([None]) as the fallback, in every visualization whose table's own
    variables leave ["exec_summary"] undefined. *)
Theorem completion_is_shown_verbatim i v completion :
  completion ∈ llm_replies (trace h run) ->
  layout_vars (trace h run) !! i = Some v ->
  exists d,
    table_vars_replies (trace h run) !! i = Some d /\
    (d !! "exec_summary" = None ->
     (forall s, completion = Some s -> s <> "" ->
                v !! "exec_summary" = Some (PStr s)) /\
     (completion = None -> v !! "exec_summary" = Some (PStr "No Insight."))).
Proof.
  intros Hllm Hv.
  apply render_layout_layout_vars in Hv
    as (name & table & d & ins & _ & Hd & Hins & ->).
  fold run in Hins, Hd. rewrite Hins in Hllm. members. subst ins.
  exists d. split; [done|]. intros Hnone.
  rewrite merged_general by done.
  destruct (general_vars_lookup title subtitle warnings completion)
    as (_ & _ & _ & -> & _).
  split.
  - intros s -> Hs. by destruct s.
  - by intros ->.
Qed.

(** X9: the layout handed to the layout engine is never [viz_layout] itself
    but a decoding: for the first table the decoding of [viz_layout], which
    is a [str]; for each later table the decoding of the layout of the table
    before, which therefore was a [str] too. *)
Theorem layouts_are_decoded_in_chain i layout vars :
  layout_requests (trace h run) !! i = Some (layout, vars) ->
  exists s,
    match i with
    | O => Some viz_layout
    | S j => fst <$> layout_requests (trace h run) !! j
    end = Some (PStr s) /\
    h (json_decode s) = Ok layout.
Proof.
  destruct render_layout_trace_split
    as (t0 & t1 & Ht & Ht0 & _ & _ & Hrun).
  destruct (narrative_calls_only _ Ht0) as (Hr & _).
  assert (layout_requests (trace h run) = layout_requests t1) as ->.
  { rewrite Ht. unfold layout_requests in *. by rewrite omap_app, Hr. }
  destruct Hrun as [[-> _]|Hrun]; [by intros H|].
  destruct Hrun as (it & mrp & ins & _ & _ & _ & _ & _ & -> & _).
  apply render_tables_chain.
Qed.

End RenderLayoutRuns.

(** ** The footer text *)

Lemma lstrip_head s c r : lstrip s = String c r -> isspace c = false.
Proof.
  induction s as [|c' s IH]; cbn; [done|].
  destruct (isspace c') eqn:E; [done|]. by intros [= <- _].
Qed.

Lemma lstrip_all_space s : all_space s = true -> lstrip s = "".
Proof.
  induction s as [|c s IH]; cbn; [done|].
  destruct (isspace c); [done|by intros].
Qed.

Lemma rstrip_head s c r : rstrip s = String c r -> exists r', s = String c r'.
Proof.
  destruct s as [|c' s]; cbn; [done|].
  destruct (rstrip s).
  - destruct (isspace c'); [done|]. intros [= <- _]. by eexists.
  - intros [= <- _]. by eexists.
Qed.

Lemma rstrip_last s c : last_char (rstrip s) = Some c -> isspace c = false.
Proof.
  induction s as [|c' s IH]; cbn; [done|].
  destruct (rstrip s) as [|c'' r] eqn:E.
  - destruct (isspace c') eqn:Hc; cbn; [done|]. by intros [= <-].
  - cbn. cbn in IH. done.
Qed.

Lemma strip_trimmed s :
  (forall c r, strip s = String c r -> isspace c = false) /\
  (forall c, last_char (strip s) = Some c -> isspace c = false) /\
  (all_space s = true -> strip s = "").
Proof.
  unfold strip. repeat split.
  - intros c r (r' & H)%rstrip_head. by apply lstrip_head in H.
  - apply rstrip_last.
  - intros H. by rewrite lstrip_all_space.
Qed.

Section RenderLayoutFooter.
Context (h : handler).
Context (tables : list (string * DataFrame)) (title subtitle : option string)
  (dim_col_label : string) (insights_dfs : list DataFrame)
  (warnings : option string) (footnotes : gmap string string)
  (max_prompt insight_prompt : string) (viz_layout : pyval).

Let run := render_layout tables title subtitle dim_col_label insights_dfs
             warnings footnotes max_prompt insight_prompt viz_layout.

(** X10: a footnote that is not empty is always shown, and its text never
    begins or ends with whitespace; a footnote of whitespace only is shown
    all the same, as an empty footer. *)
Theorem footer_text_is_trimmed i name table v s :
  tables !! i = Some (name, table) ->
  layout_vars (trace h run) !! i = Some v ->
  footnotes !! name = Some s ->
  s <> "" ->
  exists f,
    v !! "footer" = Some (PStr f) /\
    v !! "hide_footer" = Some (PBool false) /\
    (forall c r, f = String c r -> isspace c = false) /\
    (forall c, last_char f = Some c -> isspace c = false) /\
    (all_space s = true -> f = "").
Proof.
  intros Htable Hv Hs Hne.
  apply render_layout_layout_vars in Hv
    as (name' & table' & d & ins & Htable' & _ & _ & ->).
  rewrite Htable in Htable'. injection Htable' as <- <-.
  assert (dim_note footnotes name = Some s) as ->.
  { unfold dim_note. rewrite Hs. by rewrite decide_True by eauto. }
  destruct (merged_footer (Some s) d
              (general_vars title subtitle warnings ins)) as [Hh Hf].
  destruct s as [|c s]; [done|].
  exists (strip (String c s)). split; [done|]. split; [done|].
  apply strip_trimmed.
Qed.

End RenderLayoutFooter.

(** ** [kpi_performance], run by run *)

Lemma render_phase_no_engine_objects t :
  Forall (fun ev => render_phase_call (ev_call ev) = true) t ->
  display_engine_replies t = [] /\ limiter_engine_replies t = [].
Proof.
  intros H. repeat split; apply omap_None_Forall;
    (eapply Forall_impl; [apply H|]);
    intros [c r]; unfold answer; cbn; by destruct c.
Qed.

Ltac observe_engine :=
  unfold display_engine_replies, limiter_engine_replies, json_replies,
    layout_replies in *;
  observe.

(** In the case that reaches [render_layout], adds what its trace lacks. *)
Ltac engine_objects h :=
  try match goal with
      | H : context [trace h (render_layout ?a ?b ?c ?d ?e ?f ?g ?i ?j ?k)]
        |- _ =>
          let H1 := fresh "Hobjects" in
          let H2 := fresh "Hobjects" in
          destruct (render_phase_no_engine_objects _
                      (render_layout_calls h a b c d e f g i j k))
            as [H1 H2];
          unfold display_engine_replies, limiter_engine_replies in *
      end.

(** X11: when the engine's setup leaves no ["breakouts"] among
    [env.kpi_parameters], or no [kpi_parameters] at all, the handler raises
    after [run_from_env], a [KeyError] or an [AttributeError]: the display
    tables are never asked for. *)
Theorem missing_breakouts_stop_the_run (h : handler) p env kp df kp' :
  h (KPIPerformanceTemplateParameterSetup (SimpleNamespace (arguments p)))
  = Ok env ->
  h (from_env env) = Ok kp ->
  h (run_from_env kp) = Ok (df, kp') ->
  match kpi_parameters env with
  | None =>
      outcome h (kpi_performance p)
      = Err (AttributeError
               "'types.SimpleNamespace' object has no attribute 'kpi_parameters'")
      /\ length (trace h (kpi_performance p)) = 3
  | Some d =>
      d !! "breakouts" = None ->
      outcome h (kpi_performance p) = Err (KeyError "'breakouts'") /\
      length (trace h (kpi_performance p)) = 3
  end.
Proof.
  intros H1 H2 H3. unfold kpi_performance.
  cbn [trace outcome bind perform].
  rewrite H1. cbn [trace outcome]. rewrite H2. cbn [trace outcome].
  rewrite H3. cbn [trace outcome bind perform lift].
  unfold kpi_parameter.
  destruct (kpi_parameters env) as [d|]; [|done].
  by intros ->.
Qed.

(** X12: when the engine reports no dimension, the handler raises an
    [IndexError] once the suggestions are in: no prompt is rendered, the LLM
    is not asked and no visualization is made. *)
Theorem empty_dimensions_stop_before_prompts (h : handler) p followups kp :
  (followups, kp) ∈ suggestions_replies (trace h (kpi_performance p)) ->
  KPIPerformance.dimensions kp = [] ->
  outcome h (kpi_performance p) = Err (IndexError "list index out of range")
  /\ renderings (trace h (kpi_performance p)) = []
  /\ llm_prompts (trace h (kpi_performance p)) = []
  /\ layout_requests (trace h (kpi_performance p)) = [].
Proof.
  revert followups kp.
  analysis h; intros followups kp Hkp Hdims;
    simplify_run; members; simplify_eq.
  - rewrite Hdims in *. done.
  - rewrite Hdims in *. cbn in *. by simplify_eq.
Qed.

(** X13: what a run that returns puts in its output.  The narrative is
    [None]; the parameter descriptions are the engine's, in order; there is
    one visualization per display table, titled by its name; the export holds
    the display tables as the engine returned them, whatever the fact
    limiter kept; and the final prompt is the rendered max prompt, not the
    LLM's completion. *)
Theorem output_is_wired (h : handler) p out tables footnotes kp :
  outcome h (kpi_performance p) = Ok out ->
  (tables, footnotes) ∈ display_tables_replies (trace h (kpi_performance p)) ->
  kp ∈ display_engine_replies (trace h (kpi_performance p)) ->
  NoDup (map fst tables) ->
  SkillOutput.narrative out = None /\
  SkillOutput.parameter_display_descriptions out
  = map (fun kv => ParameterDisplayDescription.mk kv.1 kv.2)
      (KPIPerformance.paramater_display_infomation kp) /\
  map SkillVisualization.title (SkillOutput.visualizations out)
  = map fst tables /\
  SkillOutput.export_data out
  = map (fun kv => ExportData.mk kv.1 kv.2) tables /\
  exists facts,
    (max_prompt (arguments p), facts, Ok (SkillOutput.final_prompt out))
      ∈ renderings (trace h (kpi_performance p)).
Proof.
  revert out tables footnotes kp.
  analysis h; intros out tables footnotes kp Hout; try done.
  revert Hout. rendered h; [|done]. intros [= <-] Htables Hkp Hnames.
  engine_objects h. simplify_run. rewrite ?Hobjects in *.
  members; simplify_eq.
  cbn.
  destruct (render_layout_returns _ _ _ _ _ _ _ _ _ _ _ _ _ _ _ Hnames
              Hrendered) as [Htitles ->].
  match type of Hrendered with
  | outcome h (render_layout ?a ?b ?c ?d ?e ?f ?g ?i ?j ?k) = _ =>
      destruct (render_layout_trace_split h a b c d e f g i j k)
        as (t0' & t1' & _ & _ & _ & _ & [[_ Hnot]|Hrun]);
        [by destruct (Hnot _ Hrendered)|];
      destruct Hrun as (it & mrp' & ins' & Hit & _)
  end.
  apply render_layout_outcome in Hrendered as (Hfp & _ & _).
  cbn [map] in Hit, Hfp.
  split; [done|]. split; [done|]. split; [done|]. split; [done|].
  eexists. rewrite Hit, Hfp.
  apply list_elem_of_further, list_elem_of_here.
Qed.


(** X15: when only one of the engine's warning and the limitation note is
    there, it is shown alone, with no space added: without a note the warning
    variable is the engine's warning as it is ([None] included), and with a
    note but no warning it is the note. *)
Theorem lone_warning_is_shown_alone (h : handler) p followups kp r i v :
  (followups, kp) ∈ suggestions_replies (trace h (kpi_performance p)) ->
  r ∈ limiter_replies (trace h (kpi_performance p)) ->
  layout_vars (trace h (kpi_performance p)) !! i = Some v ->
  exists d,
    table_vars_replies (trace h (kpi_performance p)) !! i = Some d /\
    (d !! "warning" = None ->
     (truthy_str r.2 = false ->
      v !! "warning"
      = Some (of_optional_str (KPIPerformance.warning_message kp))) /\
     (truthy_str r.2 = true ->
      truthy_str (KPIPerformance.warning_message kp) = false ->
      v !! "warning" = Some (of_optional_str r.2))).
Proof.
  revert followups kp r i v.
  analysis h; intros followups kp r i v Hkp Hr Hv;
    simplify_run; members; simplify_eq.
  apply Hvars in Hv as (name & table & tv & ins & _ & Htv & _ & ->).
  exists tv. split; [done|]. intros Hwarning.
  rewrite merged_general by done.
  match goal with
  | |- context [general_vars ?t ?s ?w ins] =>
      destruct (general_vars_lookup t s w ins) as (_ & _ & _ & _ & ->)
  end.
  unfold add_limitation_note. cbn [snd].
  split.
  - by intros ->.
  - by intros -> ->.
Qed.

(** X16: both prompts are rendered from the same two lists of records: those
    of the engine's notes table, read once the fact limiter has answered,
    and those of the table the fact limiter returned. *)
Theorem facts_are_notes_and_limited_table (h : handler) p facts :
  facts ∈ prompt_facts (trace h (kpi_performance p)) ->
  exists facts_df kp,
    limiter_engine_replies (trace h (kpi_performance p)) = [(facts_df, kp)] /\
    facts = [to_dict_records (KPIPerformance.df_notes kp);
             to_dict_records facts_df].
Proof.
  revert facts.
  analysis h; intros facts Hfacts; engine_objects h; observe_engine;
    simplify_run; members.
  rewrite Hobjects0.
  eexists _, _. split; [done|].
  destruct (h (Template_render _ _)); cbn in Hfacts; members; by subst.
Qed.

(** ** The further properties on the scenarios *)

(** X1 with no table and a layout that is not even a [str]. *)
Lemma render_layout_without_tables_witness :
  let run := render_layout [] (Some "Spend") None "Region"
               [no_notes; spend_by_region] None ∅ "Answer briefly."
               "Write insights." (PDict []) in
  outcome (stand_in spend_world) run
  = Ok ([], Some "Insight for: Write insights. <- facts: 0 5",
        "Answer briefly. <- facts: 0 5", []) /\
  length (trace (stand_in spend_world) run) = 4.
Proof.
  intros run.
  destruct (render_layout_without_tables (stand_in spend_world) []
              (Some "Spend") None "Region" [no_notes; spend_by_region] None ∅
              "Answer briefly." "Write insights." (PDict [])
              "Write insights. <- facts: 0 5" "Answer briefly. <- facts: 0 5"
              (Some "Insight for: Write insights. <- facts: 0 5")
              eq_refl eq_refl eq_refl eq_refl eq_refl) as [Hout Htrace].
  fold run in Hout, Htrace. split; [exact Hout|]. by rewrite Htrace.
Defined.


(** X3 on the spend scenario, the layout given as a decoded document. *)
Lemma render_layout_needs_str_layout_witness :
  let run := render_layout (display_tables spend_world) (Some "Spend") None
               "Region" [no_notes; spend_by_region] None ∅ "Answer briefly."
               "Write insights." (PDict []) in
  display_tables spend_world <> [] /\
  outcome (stand_in spend_world) run
  = Err (TypeError
           "the JSON object must be str, bytes or bytearray, not dict") /\
  layout_requests (trace (stand_in spend_world) run) = [].
Proof.
  intros run.
  assert (display_tables spend_world <> []) as Htables by discriminate.
  assert (errors (trace (stand_in spend_world) run) = []) as Hquiet
    by reflexivity.
  destruct (render_layout_needs_str_layout (stand_in spend_world)
              (display_tables spend_world) (Some "Spend") None "Region"
              [no_notes; spend_by_region] None ∅ "Answer briefly."
              "Write insights." (PDict []) Htables ltac:(discriminate))
    as (e & Hout & _ & Hrequests & He).
  fold run in Hout, Hrequests, He.
  split; [exact Htables|]. split; [|exact Hrequests].
  rewrite Hout. f_equal. exact (He Hquiet).
Defined.

(** X4 on two tables and a layout that can be decoded twice. *)
Lemma render_layout_returns_one_per_table_witness :
  let run := render_layout (display_tables two_tables_world) (Some "Spend")
               None "Region" [no_notes; spend_by_region] None ∅
               "Answer briefly." "Write insights." nested_layout in
  NoDup (map fst (display_tables two_tables_world)) /\
  exists viz insights final_prompt,
    outcome (stand_in two_tables_world) run
    = Ok (viz, insights, final_prompt, display_tables two_tables_world) /\
    map SkillVisualization.title viz
    = ["Spend by Region"; "Spend by Channel"].
Proof.
  intros run.
  assert (NoDup (map fst (display_tables two_tables_world))) as Hnames.
  { cbn. repeat constructor.
    - intros H. members. discriminate.
    - intros H. members. }
  split; [exact Hnames|].
  assert (exists viz insights final_prompt export_data,
            outcome (stand_in two_tables_world) run
            = Ok (viz, insights, final_prompt, export_data))
    as (viz & insights & final_prompt & export_data & Hout)
    by (do 4 eexists; reflexivity).
  destruct (render_layout_returns_one_per_table (stand_in two_tables_world)
              (display_tables two_tables_world) (Some "Spend") None "Region"
              [no_notes; spend_by_region] None ∅ "Answer briefly."
              "Write insights." nested_layout viz insights final_prompt
              export_data Hnames Hout) as (Htitles & _ & Hexport & _).
  exists viz, insights, final_prompt.
  split; [by rewrite <- Hexport|exact Htitles].
Defined.

(** X5 on a renderer that accepts the insight prompt only. *)
Lemma broken_max_prompt_blocks_llm_witness :
  let run := render_layout (display_tables spend_world) (Some "Spend") None
               "Region" [no_notes; spend_by_region] None ∅ "Answer briefly."
               "Write insights." (PStr "{}") in
  max_prompt_broken
    (Template_render "Write insights."
       (map to_dict_records [no_notes; spend_by_region]))
  = Ok "Write insights. <- facts: 0 5" /\
  outcome max_prompt_broken run = Err template_error /\
  llm_prompts (trace max_prompt_broken run) = [].
Proof.
  intros run.
  destruct (broken_max_prompt_blocks_llm max_prompt_broken
              (display_tables spend_world) (Some "Spend") None "Region"
              [no_notes; spend_by_region] None ∅ "Answer briefly."
              "Write insights." (PStr "{}") "Write insights. <- facts: 0 5"
              template_error eq_refl eq_refl) as (Hout & Hllm & _).
  split; [reflexivity|]. split; [exact Hout|exact Hllm].
Defined.

(** X6 on two tables and a layout that can be decoded twice: both
    visualizations show the same headline. *)
Lemma one_completion_per_call_witness :
  let t := trace (stand_in two_tables_world)
             (render_layout (display_tables two_tables_world) (Some "Spend")
                None "Region" [no_notes; spend_by_region] None ∅
                "Answer briefly." "Write insights." nested_layout) in
  length (layout_requests t) = 2 /\
  length (llm_prompts t) = 1 /\
  exists v0 v1,
    layout_vars t !! 0%nat = Some v0 /\
    layout_vars t !! 1%nat = Some v1 /\
    v0 !! "headline" = v1 !! "headline".
Proof.
  intros t. split; [reflexivity|]. split; [reflexivity|].
  do 2 eexists. split; [reflexivity|]. split; [reflexivity|].
  refine (proj2 (proj2 (proj2
            (one_completion_per_call (stand_in two_tables_world)
               (display_tables two_tables_world) (Some "Spend") None "Region"
               [no_notes; spend_by_region] None ∅ "Answer briefly."
               "Write insights." nested_layout)))
            0%nat 1%nat _ _ _ _ "headline" eq_refl eq_refl eq_refl eq_refl
            _ eq_refl eq_refl).
  apply list_elem_of_here.
Defined.

(** X7 on the channel scenario: the table's data are handed over. *)
Lemma layout_variables_are_bound_witness :
  let t := trace (stand_in channel_world)
             (render_layout (display_tables channel_world) None (Some "")
                "Channel" [no_notes; spend_by_channel] None channel_footnotes
                "Answer briefly." "Write insights." (PStr "{}")) in
  exists v,
    layout_vars t !! 0%nat = Some v /\
    is_Some (v !! "warning") /\
    v !! "dim_col_label" = Some (PStr "Channel").
Proof.
  intros t. eexists. split; [reflexivity|].
  destruct (layout_variables_are_bound (stand_in channel_world)
              (display_tables channel_world) None (Some "") "Channel"
              [no_notes; spend_by_channel] None channel_footnotes
              "Answer briefly." "Write insights." (PStr "{}") 0%nat _
              eq_refl) as (Hbound & d & Hd & Hkept).
  split.
  - apply Hbound.
    repeat first [apply list_elem_of_here | apply list_elem_of_further].
  - assert (d = channel_table_vars) as ->
      by (apply (inj Some); rewrite <- Hd; reflexivity).
    apply Hkept; [|reflexivity].
    unfold footer_keys. intros H. members; discriminate.
Defined.

(** X8 on the spend scenario, whose LLM answers. *)
Lemma completion_is_shown_verbatim_witness :
  let t := trace (stand_in spend_world)
             (render_layout (display_tables spend_world) (Some "Spend") None
                "Region" [no_notes; spend_by_region] None ∅ "Answer briefly."
                "Write insights." (PStr "{}")) in
  Some "Insight for: Write insights. <- facts: 0 5" ∈ llm_replies t /\
  exists v,
    layout_vars t !! 0%nat = Some v /\
    v !! "exec_summary"
    = Some (PStr "Insight for: Write insights. <- facts: 0 5").
Proof.
  intros t.
  assert (Some "Insight for: Write insights. <- facts: 0 5" ∈ llm_replies t)
    as Hllm by apply list_elem_of_here.
  split; [exact Hllm|]. eexists. split; [reflexivity|].
  destruct (completion_is_shown_verbatim (stand_in spend_world)
              (display_tables spend_world) (Some "Spend") None "Region"
              [no_notes; spend_by_region] None ∅ "Answer briefly."
              "Write insights." (PStr "{}") 0%nat _ _ Hllm eq_refl)
    as (d & Hd & Hshown).
  assert (d !! "exec_summary" = None) as Hnone.
  { apply (inj Some) in Hd. by rewrite <- Hd. }
  exact (proj1 (Hshown Hnone) _ eq_refl ltac:(discriminate)).
Defined.

(** X9 on two tables and a layout that can be decoded twice: the second
    layout is the decoding of the first. *)
Lemma layouts_are_decoded_in_chain_witness :
  let t := trace (stand_in two_tables_world)
             (render_layout (display_tables two_tables_world) (Some "Spend")
                None "Region" [no_notes; spend_by_region] None ∅
                "Answer briefly." "Write insights." nested_layout) in
  fst <$> layout_requests t !! 0%nat = Some (PStr "{}") /\
  fst <$> layout_requests t !! 1%nat = Some (PDict []) /\
  stand_in two_tables_world (json_decode "{}") = Ok (PDict []).
Proof.
  intros t. split; [reflexivity|]. split; [reflexivity|].
  destruct (layouts_are_decoded_in_chain (stand_in two_tables_world)
              (display_tables two_tables_world) (Some "Spend") None "Region"
              [no_notes; spend_by_region] None ∅ "Answer briefly."
              "Write insights." nested_layout 1%nat (PDict []) _ eq_refl)
    as (s & Hs & Hdec).
  assert (Some (PStr s) = Some (PStr "{}")) as [= ->]
    by (rewrite <- Hs; reflexivity).
  exact Hdec.
Defined.

(** X10 on the channel table with a footnote of blanks. *)
Lemma footer_text_is_trimmed_witness :
  let t := trace (stand_in channel_world)
             (render_layout (display_tables channel_world) None (Some "")
                "Channel" [no_notes; spend_by_channel] None blank_footnotes
                "Answer briefly." "Write insights." (PStr "{}")) in
  blank_footnotes !! "Spend by Channel" = Some "   " /\
  exists v,
    layout_vars t !! 0%nat = Some v /\
    v !! "hide_footer" = Some (PBool false) /\
    v !! "footer" = Some (PStr "").
Proof.
  intros t. split; [reflexivity|]. eexists. split; [reflexivity|].
  destruct (footer_text_is_trimmed (stand_in channel_world)
              (display_tables channel_world) None (Some "") "Channel"
              [no_notes; spend_by_channel] None blank_footnotes
              "Answer briefly." "Write insights." (PStr "{}") 0%nat
              "Spend by Channel" spend_by_channel _ "   " eq_refl eq_refl
              eq_refl ltac:(discriminate))
    as (f & Hf & Hh & _ & _ & Hblank).
  split; [exact Hh|]. rewrite Hf. by rewrite (Hblank eq_refl).
Defined.

(** X11 on a setup that records the metrics only. *)
Lemma missing_breakouts_stop_the_run_witness :
  let h := with_setup metrics_only (stand_in spend_world) in
  kpi_parameters (metrics_only (SimpleNamespace (arguments spend_parameters)))
  = Some {[ "metrics" := PList [PStr "Spend"] ]} /\
  outcome h (kpi_performance spend_parameters) = Err (KeyError "'breakouts'")
  /\ length (trace h (kpi_performance spend_parameters)) = 3.
Proof.
  intros h. split; [reflexivity|].
  exact (missing_breakouts_stop_the_run h spend_parameters
           (metrics_only (SimpleNamespace (arguments spend_parameters)))
           spend_engine spend_by_region spend_engine eq_refl eq_refl eq_refl
           eq_refl).
Defined.

(** X12 on an engine that reports no dimension. *)
Lemma empty_dimensions_stop_before_prompts_witness :
  let t := trace (stand_in no_dimension_world)
             (kpi_performance spend_parameters) in
  ([], engine no_dimension_world) ∈ suggestions_replies t /\
  outcome (stand_in no_dimension_world) (kpi_performance spend_parameters)
  = Err (IndexError "list index out of range") /\
  llm_prompts t = [].
Proof.
  intros t.
  assert (([], engine no_dimension_world) ∈ suggestions_replies t) as Hkp
    by apply list_elem_of_here.
  destruct (empty_dimensions_stop_before_prompts (stand_in no_dimension_world)
              spend_parameters _ _ Hkp eq_refl) as (Hout & _ & Hllm & _).
  split; [exact Hkp|]. split; [exact Hout|exact Hllm].
Defined.

(** X13 on the channel scenario: seven rows are exported though five are
    kept as facts. *)
Lemma output_is_wired_witness :
  exists out,
    outcome (stand_in quiet_channel_world) (kpi_performance spend_parameters)
    = Ok out /\
    SkillOutput.narrative out = None /\
    SkillOutput.export_data out
    = [ExportData.mk "Spend by Channel" spend_by_channel] /\
    length (df_rows spend_by_channel) = 7.
Proof.
  eexists.
  assert (outcome (stand_in quiet_channel_world)
            (kpi_performance spend_parameters) = Ok _) as Hout
    by reflexivity.
  destruct (output_is_wired (stand_in quiet_channel_world) spend_parameters _
              (display_tables quiet_channel_world) ∅ spend_engine Hout
              ltac:(apply list_elem_of_here) ltac:(apply list_elem_of_here)
              ltac:(repeat constructor; intros H; members))
    as (Hnarrative & _ & _ & Hexport & _).
  split; [exact Hout|]. split; [exact Hnarrative|].
  split; [exact Hexport|reflexivity].
Defined.


(** X15 on seven rows and an engine without warning: the note alone. *)
Lemma lone_warning_is_shown_alone_witness :
  let t := trace (stand_in quiet_channel_world)
             (kpi_performance spend_parameters) in
  ([], spend_engine) ∈ suggestions_replies t /\
  limit_facts_spec note_wording spend_by_channel 5 ∈ limiter_replies t /\
  exists v,
    layout_vars t !! 0%nat = Some v /\
    v !! "warning" = Some (PStr "Showing top rows only: 2 rows omitted.").
Proof.
  intros t.
  assert (([], spend_engine) ∈ suggestions_replies t) as Hkp
    by apply list_elem_of_here.
  assert (limit_facts_spec note_wording spend_by_channel 5
            ∈ limiter_replies t) as Hr by apply list_elem_of_here.
  split; [exact Hkp|]. split; [exact Hr|].
  eexists. split; [reflexivity|].
  destruct (lone_warning_is_shown_alone (stand_in quiet_channel_world)
              spend_parameters _ _ _ 0%nat _ Hkp Hr eq_refl)
    as (d & Hd & Hshown).
  assert (d !! "warning" = None) as Hnone.
  { apply (inj Some) in Hd. by rewrite <- Hd. }
  exact (proj2 (Hshown Hnone) eq_refl eq_refl).
Defined.

(** X16 on the channel scenario: no note of the engine, five of seven
    rows. *)
Lemma facts_are_notes_and_limited_table_witness :
  let t := trace (stand_in quiet_channel_world)
             (kpi_performance spend_parameters) in
  exists facts,
    facts ∈ prompt_facts t /\
    facts = [[]; take 5 (to_dict_records spend_by_channel)].
Proof.
  intros t. eexists. 
  assert ([to_dict_records no_notes;
           to_dict_records (limit_facts_spec note_wording spend_by_channel
                              5).1] ∈ prompt_facts t) as Hfacts
    by apply list_elem_of_here.
  split; [exact Hfacts|].
  destruct (facts_are_notes_and_limited_table (stand_in quiet_channel_world)
              spend_parameters _ Hfacts) as (facts_df & kp & Hreply & ->).
  injection Hreply as <- <-. reflexivity.
Defined.
